(** * nanobot.mcp: the MCP tool adapter and the MCP client manager

    A shallow embedding of [nanobot/mcp/tools.py] and [nanobot/mcp/client.py],
    and of the calendar tool of [nanobot/agent/tools/calendar.py].

    - Python strings are [string]; [dict] objects whose iteration order is
      observable are association lists in insertion order.
    - A coroutine of the source is a computation in a state and exception
      monad: the state holds the objects the code mutates and the record of
      what it did to the outside world (calls made on FastMCP clients, lines
      handed to the loguru logger).
    - The FastMCP client is the environment.  It is a [World]: for every
      operation the code awaits, a function from the history of calls made so
      far to the result of the next one, which is a value or a raised
      exception, of any class: an awaited call can also end in the
      cancellation of the task. *)

From Stdlib Require Import String Ascii List Bool Arith ZArith Lia DecimalString.
From Stdlib Require Import Sorted Permutation.
Import ListNotations.
Open Scope string_scope.

(** ** Python values used by the two modules *)

Module Py.

(** [str.__contains__]: [str_in sub s] is Python's [sub in s]. *)
Fixpoint str_in (sub s : string) : bool :=
  String.prefix sub s ||
  match s with
  | EmptyString => false
  | String _ s' => str_in sub s'
  end.

(** A string in which the character of the separator ["__"] does not occur. *)
Definition no_underscore (s : string) : bool := negb (str_in "_" s).

(** The line feed of ["\n"]. *)
Definition nl : string := String (ascii_of_nat 10) EmptyString.

(** [str(n)] for a non-negative [int]. *)
Definition str_of_nat (n : nat) : string := NilEmpty.string_of_uint (Nat.to_uint n).

(** Truthiness of a [str]: only the empty string is falsy. *)
Definition truthy_str (s : string) : bool :=
  match s with EmptyString => false | String _ _ => true end.

(** [a or b] on strings. *)
Definition or_str (a b : string) : string := if truthy_str a then a else b.

(** JSON-like values: tool arguments and parameter schemas. *)
#[local] Unset Elimination Schemes.
Inductive json : Type :=
| JNull
| JBool (b : bool)
| JInt (z : Z)
| JStr (s : string)
| JList (l : list json)
| JDict (d : list (string * json)).
#[local] Set Elimination Schemes.

(** A [dict] with string keys, in insertion order. *)
Definition dict (V : Type) : Type := list (string * V).

(** [d[k] = v]: an existing key keeps its position, a new one goes last. *)
Fixpoint dict_set {V : Type} (d : dict V) (k : string) (v : V) : dict V :=
  match d with
  | [] => [(k, v)]
  | (k', v') :: rest =>
      if String.eqb k' k then (k, v) :: rest else (k', v') :: dict_set rest k v
  end.

(** [x or default] where [x] is a container or [None]: [None] and the empty
    container are both falsy. *)
Definition or_list {A : Type} (x : option (list A)) (default : list A) : list A :=
  match x with
  | Some (a :: l) => a :: l
  | Some [] | None => default
  end.

(** What is raised: the class of the exception and its [str(e)]. *)
Record exn : Type := mk_exn { exn_class : string; exn_msg : string }.

(** The built-in classes that derive from [BaseException] and not from
    [Exception]; [asyncio.CancelledError], raised in a task that is cancelled
    while it awaits, is one of them. *)
Definition base_only : list string :=
  ["BaseException"; "BaseExceptionGroup"; "CancelledError"; "GeneratorExit";
   "KeyboardInterrupt"; "SystemExit"].

(** [isinstance(e, Exception)]. *)
Definition is_exception (e : exn) : bool :=
  negb (existsb (String.eqb (exn_class e)) base_only).

Definition ValueError (msg : string) : exn := mk_exn "ValueError" msg.

(** [asyncio.CancelledError()], whose [str] is empty. *)
Definition CancelledError : exn := mk_exn "CancelledError" "".

(** How a call ends. *)
Inductive outcome (A : Type) : Type :=
| Returned (a : A)
| Raised (e : exn).
Arguments Returned {A} a.
Arguments Raised {A} e.

Definition is_raised {A : Type} (o : outcome A) : bool :=
  match o with Returned _ => false | Raised _ => true end.

(** *** The state and exception monad

    Effects made before an exception is raised stay: a [Raised] outcome comes
    with the state reached at the [raise]. *)
Definition M (S A : Type) : Type := S -> outcome A * S.

Definition ret {S A : Type} (a : A) : M S A := fun s => (Returned a, s).

Definition bind {S A B : Type} (c : M S A) (k : A -> M S B) : M S B :=
  fun s =>
    match c s with
    | (Returned a, s') => k a s'
    | (Raised e, s') => (Raised e, s')
    end.

(** [try: body  except Exception as e: handler]: an exception that is not an
    instance of [Exception] is not caught. *)
Definition try_except {S A : Type} (body : M S A) (handler : exn -> M S A) : M S A :=
  fun s =>
    match body s with
    | (Returned a, s') => (Returned a, s')
    | (Raised e, s') => if is_exception e then handler e s' else (Raised e, s')
    end.

Definition get {S : Type} : M S S := fun s => (Returned s, s).

Definition modify {S : Type} (f : S -> S) : M S unit := fun s => (Returned tt, f s).

(** A call that touches no state: its value, or the exception it raises. *)
Definition lift_outcome {S A : Type} (o : outcome A) : M S A := fun s => (o, s).

Declare Scope py_scope.
Delimit Scope py_scope with py.
Notation "x <- c ;; k" := (bind c (fun x => k))
  (at level 100, c at next level, right associativity) : py_scope.
Notation "c ;;; k" := (bind c (fun _ => k))
  (at level 100, right associativity) : py_scope.

(** [for x in l: body x]. *)
Fixpoint for_each {S A : Type} (l : list A) (body : A -> M S unit) : M S unit :=
  match l with
  | [] => ret tt
  | x :: rest => bind (body x) (fun _ => for_each rest body)
  end.

End Py.

Import Py.
Open Scope py_scope.

(** ** The environment: FastMCP and loguru *)

Module Env.

(** [fastmcp.client.transports]: a transport is the record of the arguments
    its constructor was given.  An argument that Python would let be [None]
    is an [option]. *)
Inductive Transport : Type :=
| StreamableHttpTransport (url : string) (headers : option (dict string))
| StdioTransport (command : string) (args : option (list string))
    (env : option (dict string)).

(** [fastmcp.Client(transport)]. *)
Record Client : Type := mk_client { client_transport : Transport }.

(** A tool as [list_tools] reports it. [description] may be [None]; the
    [inputSchema] attribute may be missing. *)
Record RemoteTool : Type := mk_remote_tool {
  tool_name : string;
  tool_description : option string;
  tool_inputSchema : option (dict json)
}.

(** A content block of a tool result: one with a [text] attribute, or any
    other object, given by its [str()]. *)
Inductive ContentBlock : Type :=
| TextBlock (text : string)
| OtherBlock (str : string).

Record CallToolResult : Type := mk_result { content : list ContentBlock }.

(** The calls awaited on a client. *)
Inductive io_event : Type :=
| EvEnter (c : Client)
| EvListTools (c : Client)
| EvExit (c : Client)
| EvCallTool (c : Client) (name : string) (arguments : dict json).

Inductive level : Type := DEBUG | INFO | WARNING.

Record log_record : Type := mk_log { log_level : level; log_msg : string }.

(** What the code did to the outside, oldest first. *)
Record Runtime : Type := mk_runtime {
  io : list io_event;
  log : list log_record
}.

Definition runtime0 : Runtime := mk_runtime [] [].

(** The behaviour of the FastMCP clients: each awaited call is answered from
    the calls made before it. *)
Record World : Type := mk_world {
  w_aenter : list io_event -> Client -> outcome unit;
  w_list_tools : list io_event -> Client -> outcome (list RemoteTool);
  w_aexit : list io_event -> Client -> outcome unit;
  w_call_tool :
    list io_event -> Client -> string -> dict json -> outcome CallToolResult
}.

Definition record_io (ev : io_event) (rt : Runtime) : Runtime :=
  mk_runtime (io rt ++ [ev]) (log rt).

Definition record_log (r : log_record) (rt : Runtime) : Runtime :=
  mk_runtime (io rt) (log rt ++ [r]).

(** An awaited call: answered by the world from the history, then recorded. *)
Definition await {A : Type} (answer : list io_event -> outcome A) (ev : io_event)
  : M Runtime A :=
  fun rt => (answer (io rt), record_io ev rt).

Definition aenter (w : World) (c : Client) : M Runtime unit :=
  await (fun h => w_aenter w h c) (EvEnter c).

Definition list_tools (w : World) (c : Client) : M Runtime (list RemoteTool) :=
  await (fun h => w_list_tools w h c) (EvListTools c).

Definition aexit (w : World) (c : Client) : M Runtime unit :=
  await (fun h => w_aexit w h c) (EvExit c).

Definition call_tool (w : World) (c : Client) (name : string) (arguments : dict json)
  : M Runtime CallToolResult :=
  await (fun h => w_call_tool w h c name arguments) (EvCallTool c name arguments).

Definition logger (lv : level) (msg : string) : M Runtime unit :=
  modify (record_log (mk_log lv msg)).

End Env.

Import Env.

(** ** nanobot/mcp/tools.py *)

Module Tools.

Record McpToolAdapter : Type := mk_adapter {
  _server_name : string;
  _tool_name : string;
  _description : string;
  _input_schema : dict json;
  _client : Client
}.

(** [McpToolAdapter.__init__]. *)
Definition McpToolAdapter_init (server_name tool_name tool_description : string)
  (input_schema : dict json) (client : Client) : McpToolAdapter :=
  {| _server_name := server_name;
     _tool_name := tool_name;
     _description :=
       or_str tool_description ("MCP tool " ++ tool_name ++ " from " ++ server_name);
     _input_schema :=
       or_list (Some input_schema)
         [("type", JStr "object"); ("properties", JDict [])];
     _client := client |}.

Definition name (self : McpToolAdapter) : string :=
  "mcp__" ++ _server_name self ++ "__" ++ _tool_name self.

Definition description (self : McpToolAdapter) : string := _description self.

Definition parameters (self : McpToolAdapter) : dict json := _input_schema self.

(** One iteration of the loop over [result.content]. *)
Definition block_part (block : ContentBlock) : string :=
  match block with
  | TextBlock text => text
  | OtherBlock str => str
  end.

(** The [return] of the [try] body: the join if [parts] is a non-empty list. *)
Definition join_parts (parts : list string) : string :=
  match parts with
  | [] => "(empty result)"
  | _ :: _ => String.concat nl parts
  end.

Definition execute (w : World) (self : McpToolAdapter) (kwargs : dict json)
  : M Runtime string :=
  try_except
    (result <- call_tool w (_client self) (_tool_name self) kwargs ;;
     let parts := map block_part (content result) in
     ret (join_parts parts))
    (fun e =>
       logger WARNING
         ("MCP tool " ++ name self ++ " execution failed: " ++ exn_msg e) ;;;
       ret ("Error calling MCP tool '" ++ _tool_name self ++ "' on server '"
              ++ _server_name self ++ "': " ++ exn_msg e)).

End Tools.

(** ** nanobot/mcp/client.py *)

Module Client.

Import Tools.

(** Modelled from the spec: [McpServerConfig] and [McpConfig] are declared in
    nanobot/config/schema.py, which is not among the sources.  The fields are
    the ones the manager reads; [type] is ["http"] for the network transport
    and ["stdio"] for the process transport.  The three containers are
    optional here so that the manager's [or] defaults have something to do. *)
Record McpServerConfig : Type := mk_server_config {
  enabled : bool;
  type : string;
  url : string;
  headers : option (dict string);
  command : string;
  args : option (list string);
  env : option (dict string)
}.

(** [McpServerConfig()] with the defaults of the schema. *)
Definition McpServerConfig_default : McpServerConfig :=
  mk_server_config true "http" "" (Some []) "" (Some []) (Some []).

Record McpConfig : Type := mk_config { servers : dict McpServerConfig }.

Record McpClientManager : Type := mk_manager {
  _config : McpConfig;
  _clients : dict Client;
  _contexts : dict Client;
  _tools : list McpToolAdapter;
  _started : bool
}.

(** [McpClientManager.__init__]. *)
Definition McpClientManager_init (config : McpConfig) : McpClientManager :=
  mk_manager config [] [] [] false.

(** The manager object and the outside world. *)
Record State : Type := mk_state { self : McpClientManager; rt : Runtime }.

(** Run a computation on the outside world, the manager untouched. *)
Definition zoom {A : Type} (c : M Runtime A) : M State A :=
  fun s => let (o, rt') := c (rt s) in (o, mk_state (self s) rt').

(** An assignment to, or a mutation of, an attribute of [self]. *)
Definition update (f : McpClientManager -> McpClientManager) : M State unit :=
  modify (fun s => mk_state (f (self s)) (rt s)).

Definition set_clients (v : dict Client) (m : McpClientManager) : McpClientManager :=
  mk_manager (_config m) v (_contexts m) (_tools m) (_started m).

Definition set_contexts (v : dict Client) (m : McpClientManager) : McpClientManager :=
  mk_manager (_config m) (_clients m) v (_tools m) (_started m).

Definition set_tools (v : list McpToolAdapter) (m : McpClientManager) : McpClientManager :=
  mk_manager (_config m) (_clients m) (_contexts m) v (_started m).

Definition set_started (v : bool) (m : McpClientManager) : McpClientManager :=
  mk_manager (_config m) (_clients m) (_contexts m) (_tools m) v.

(** [McpClientManager._build_transport]. *)
Definition _build_transport (name : string) (cfg : McpServerConfig) : outcome Transport :=
  if (type cfg =? "http")%string then
    if negb (truthy_str (url cfg)) then
      Raised (ValueError ("MCP server '" ++ name ++ "': HTTP transport requires a 'url'"))
    else
      Returned (StreamableHttpTransport (url cfg) (Some (or_list (headers cfg) [])))
  else if (type cfg =? "stdio")%string then
    if negb (truthy_str (command cfg)) then
      Raised (ValueError ("MCP server '" ++ name ++ "': stdio transport requires a 'command'"))
    else
      Returned (StdioTransport (command cfg)
                  (Some (or_list (args cfg) [])) (Some (or_list (env cfg) [])))
  else
    Raised (ValueError ("MCP server '" ++ name ++ "': unsupported transport type '"
                          ++ type cfg ++ "' (expected 'http' or 'stdio')")).

(** The adapter made for one discovered tool. *)
Definition adapter_of (name : string) (client : Client) (tool : RemoteTool)
  : McpToolAdapter :=
  McpToolAdapter_init name (tool_name tool)
    (match tool_description tool with Some d => or_str d "" | None => "" end)
    (match tool_inputSchema tool with Some sch => sch | None => [] end)
    client.

(** The body of the [try] in [start]: build the transport, open the session,
    discover the tools and append one adapter for each. *)
Definition connect_server (w : World) (name : string) (server_cfg : McpServerConfig)
  : M State unit :=
  transport <- lift_outcome (_build_transport name server_cfg) ;;
  let client := mk_client transport in
  zoom (aenter w client) ;;;
  update (fun m => set_clients (dict_set (_clients m) name client) m) ;;;
  update (fun m => set_contexts (dict_set (_contexts m) name client) m) ;;;
  remote_tools <- zoom (list_tools w client) ;;
  zoom (logger INFO ("MCP server '" ++ name ++ "': connected, "
                       ++ str_of_nat (List.length remote_tools) ++ " tool(s) found")) ;;;
  for_each remote_tools (fun tool =>
    update (fun m => set_tools (_tools m ++ [adapter_of name client tool]) m)).

(** One iteration of the loop of [start] over [self._config.servers.items()]. *)
Definition start_server (w : World) (item : string * McpServerConfig) : M State unit :=
  let (name, server_cfg) := item in
  if negb (enabled server_cfg) then
    zoom (logger INFO ("MCP server '" ++ name ++ "' is disabled, skipping"))
  else
    try_except (connect_server w name server_cfg)
      (fun e =>
         zoom (logger WARNING
                 ("MCP server '" ++ name ++ "' failed to connect: " ++ exn_msg e))).

Definition start (w : World) : M State (list McpToolAdapter) :=
  s <- get ;;
  if _started (self s) then ret (_tools (self s))
  else
    update (set_tools []) ;;;
    for_each (servers (_config (self s))) (start_server w) ;;;
    update (set_started true) ;;;
    s' <- get ;;
    ret (_tools (self s')).

(** One iteration of the loop of [stop] over [list(self._contexts.items())]. *)
Definition stop_client (w : World) (item : string * Client) : M State unit :=
  let (name, client) := item in
  try_except (zoom (aexit w client))
    (fun e =>
       zoom (logger DEBUG
               ("Error closing MCP client '" ++ name ++ "': " ++ exn_msg e))).

Definition stop (w : World) : M State unit :=
  s <- get ;;
  for_each (_contexts (self s)) (stop_client w) ;;;
  update (set_clients []) ;;;
  update (set_contexts []) ;;;
  update (set_tools []) ;;;
  update (set_started false).

Definition get_tools (m : McpClientManager) : list McpToolAdapter := _tools m.

Definition is_started (m : McpClientManager) : bool := _started m.

(** A manager just constructed, nothing done to the world yet. *)
Definition fresh (config : McpConfig) : State :=
  mk_state (McpClientManager_init config) runtime0.

End Client.

(** ** States reached by the manager, and what can be observed of them *)

Module Obs.

Import Tools Client.

(** The state after a line was handed to the logger. *)
Definition logged (lv : level) (msg : string) (s : State) : State :=
  mk_state (self s) (record_log (mk_log lv msg) (rt s)).

(** The state after a call was awaited on a client. *)
Definition awaited (ev : io_event) (s : State) : State :=
  mk_state (self s) (record_io ev (rt s)).

(** The state after [self._clients[name] = client] and
    [self._contexts[name] = client]. *)
Definition registered (name : string) (client : Client) (s : State) : State :=
  mk_state
    (set_contexts (dict_set (_contexts (self s)) name client)
       (set_clients (dict_set (_clients (self s)) name client) (self s)))
    (rt s).

(** The state after one adapter per discovered tool was appended. *)
Definition discovered (name : string) (client : Client) (tools : list RemoteTool)
  (s : State) : State :=
  mk_state
    (set_tools (_tools (self s) ++ map (adapter_of name client) tools) (self s))
    (rt s).

(** [start] on a manager that is not started: the state before the loop,
    the state the loop over [l] leads to, and the state after the loop. *)
Definition begin (s : State) : State := mk_state (set_tools [] (self s)) (rt s).

Definition run_servers (w : World) (l : dict McpServerConfig) (s : State) : State :=
  snd (for_each l (start_server w) s).

Definition finish (s : State) : State := mk_state (set_started true (self s)) (rt s).

(** The warning of the handler of [start]. *)
Definition warned (name : string) (e : exn) (s : State) : State :=
  logged WARNING ("MCP server '" ++ name ++ "' failed to connect: " ++ exn_msg e) s.

(** The state after the loop of [stop] over the sessions [l]. *)
Definition run_closes (w : World) (l : dict Client) (s : State) : State :=
  snd (for_each l (stop_client w) s).

(** The same manager and world, with another set of configured servers. *)
Definition with_servers (l : dict McpServerConfig) (s : State) : State :=
  mk_state
    (mk_manager (mk_config l) (_clients (self s)) (_contexts (self s))
       (_tools (self s)) (_started (self s)))
    (rt s).

(** Everything of a state but the configuration and the log: the sessions,
    the adapters, the started flag and the calls made on clients. *)
Definition effects (s : State)
  : dict Client * dict Client * list McpToolAdapter * bool * list io_event :=
  (_clients (self s), _contexts (self s), _tools (self s), _started (self s),
   io (rt s)).

Definition is_enter (ev : io_event) : bool :=
  match ev with EvEnter _ => true | _ => false end.

(** How many times [__aenter__] was awaited: the connections attempted,
    whether the session opened or not. *)
Definition count_enter (h : list io_event) : nat := List.length (filter is_enter h).

(** The servers [start] tries to connect to: enabled, with a transport that
    can be built. *)
Definition attempted (item : string * McpServerConfig) : bool :=
  enabled (snd item) && negb (is_raised (_build_transport (fst item) (snd item))).

(** What is known of an adapter appended for server [n] of configuration [c],
    in the state [s'] reached. *)
Definition bound_to (n : string) (c : McpServerConfig) (s' : State)
  (a : McpToolAdapter) : Prop :=
  _server_name a = n
  /\ enabled c = true
  /\ _build_transport n c = Returned (client_transport (_client a))
  /\ description a <> ""
  /\ parameters a <> []
  /\ In (n, _client a) (_contexts (self s'))
  /\ In (n, _client a) (_clients (self s')).

(** A world in which no connection and no discovery is interrupted: what
    [__aenter__] and [list_tools] raise is an instance of [Exception]. *)
Definition calm_start (w : World) : Prop :=
  (forall h c e, w_aenter w h c = Raised e -> is_exception e = true)
  /\ (forall h c e, w_list_tools w h c = Raised e -> is_exception e = true).

(** A world in which no close is interrupted. *)
Definition calm_stop (w : World) : Prop :=
  forall h c e, w_aexit w h c = Raised e -> is_exception e = true.

(** *** The sessions left open by a history of calls *)

Definition Client_eq_dec (a b : Client) : {a = b} + {a <> b}.
Proof. repeat decide equality. Defined.

Fixpoint remove_first (c : Client) (l : list Client) : list Client :=
  match l with
  | [] => []
  | x :: l' => if Client_eq_dec c x then l' else x :: remove_first c l'
  end.

(** What one awaited call does to the open sessions: an [__aenter__] that
    returns opens one, an [__aexit__] ends one whether it returns or raises. *)
Definition session_step (w : World) (past : list io_event) (ev : io_event)
  (open : list Client) : list Client :=
  match ev with
  | EvEnter c => if is_raised (w_aenter w past c) then open else (open ++ [c])%list
  | EvExit c => remove_first c open
  | EvListTools _ | EvCallTool _ _ _ => open
  end.

Fixpoint sessions_rev (w : World) (newest_first : list io_event) : list Client :=
  match newest_first with
  | [] => []
  | ev :: older => session_step w (rev older) ev (sessions_rev w older)
  end.

(** The sessions open after the calls [h], oldest first. *)
Definition open_sessions (w : World) (h : list io_event) : list Client :=
  sessions_rev w (rev h).

(** The sessions of the session map, in its order. *)
Definition held (s : State) : list Client := map snd (_contexts (self s)).

(** The states a manager for [config] goes through: it is constructed, then
    started, stopped, and its adapters executed, in any order; a [start] or a
    [stop] that was interrupted is not followed. *)
Inductive reachable (w : World) (config : McpConfig) : State -> Prop :=
| reach_fresh : reachable w config (fresh config)
| reach_start (s : State) :
    reachable w config s ->
    is_raised (fst (start w s)) = false ->
    reachable w config (snd (start w s))
| reach_stop (s : State) :
    reachable w config s ->
    is_raised (fst (stop w s)) = false ->
    reachable w config (snd (stop w s))
| reach_execute (s : State) (a : McpToolAdapter) (kwargs : dict json) :
    reachable w config s ->
    In a (get_tools (self s)) ->
    reachable w config (mk_state (self s) (snd (execute w a kwargs (rt s)))).

End Obs.

(** ** nanobot/agent/tools/calendar.py *)

Module Calendar.

(** *** Python values *)

(** Truthiness of a value. *)
Definition truthy (v : json) : bool :=
  match v with
  | JNull => false
  | JBool b => b
  | JInt z => negb (Z.eqb z 0)
  | JStr s => truthy_str s
  | JList l => match l with [] => false | _ :: _ => true end
  | JDict d => match d with [] => false | _ :: _ => true end
  end.

(** [v == s] for a string literal [s]. *)
Definition eq_str (v : json) (s : string) : bool :=
  match v with
  | JStr x => String.eqb x s
  | _ => false
  end.

Fixpoint lookup {V : Type} (d : dict V) (k : string) : option V :=
  match d with
  | [] => None
  | (k', v) :: rest => if String.eqb k' k then Some v else lookup rest k
  end.

(** [d.get(k, default)]. *)
Definition dict_get (d : dict json) (k : string) (default : json) : json :=
  match lookup d k with
  | Some v => v
  | None => default
  end.

(** [str(e)] for [KeyError(k)]: the [repr] of a key, which is one of the
    identifiers of this file. *)
Definition KeyError (k : string) : exn := mk_exn "KeyError" ("'" ++ k ++ "'").

Definition TypeError (msg : string) : exn := mk_exn "TypeError" msg.

(** [l[:stop]]. *)
Definition slice_to {A : Type} (l : list A) (stop : json) : outcome (list A) :=
  match stop with
  | JNull => Returned l
  | JInt z =>
      Returned (if (0 <=? z)%Z then firstn (Z.to_nat z) l
                else firstn (List.length l - Z.to_nat (- z)) l)
  | JBool b => Returned (firstn (if b then 1 else 0) l)
  | JStr _ | JList _ | JDict _ =>
      Raised (TypeError
                "slice indices must be integers or None or have an __index__ method")
  end.

(** [str(x)] where [x] is a string or [None]. *)
Definition str_opt (x : option string) : string :=
  match x with
  | Some s => s
  | None => "None"
  end.

(** *** The Google libraries and the file system *)

(** [google.oauth2.credentials.Credentials], as far as the tool reads it. *)
Record Credentials : Type := mk_creds {
  valid : bool;
  expired : bool;
  refresh_token : option string;
  to_json : string
}.

(** An entry of the calendar list, or the metadata of a calendar: a [dict]
    whose values have the types of the Calendar API and whose keys may be
    missing. *)
Record CalendarEntry : Type := mk_calendar {
  cal_id : option string;
  cal_summary : option string;
  cal_selected : option bool;
  cal_primary : option bool
}.

(** The ["start"] of an event. *)
Record EventTime : Type := mk_time {
  dateTime : option string;
  date : option string
}.

Record Event : Type := mk_event {
  ev_start : option EventTime;
  ev_summary : option string
}.

(** An event after [item["_calendar_summary"] = cal_summary]. *)
Record TaggedEvent : Type := mk_tagged {
  _calendar_summary : string;
  tagged_event : Event
}.

(** The service that [build] returns. *)
Record Service : Type := mk_service { service_credentials : Credentials }.

(** What the tool did to the outside. *)
Inductive gevent : Type :=
| GExists (path : string)
| GLoadToken (path : string) (scopes : list string)
| GRefresh (creds : Credentials)
| GEnsureDir (path : string)
| GWrite (path content : string)
| GBuild (creds : Credentials)
| GNow
| GCalendarList (service : Service)
| GCalendarGet (service : Service) (calendarId : json)
| GEventsList (service : Service) (calendarId timeMin : string) (maxResults : json)
| GEventsInsert (service : Service) (calendarId body : json).

Definition History : Type := list gevent.

(** The behaviour of the outside: the file system, the clock, the Google
    libraries, and the parts of Python this file does not define ([repr] of a
    list or dict, the message of the [TypeError] that [list.sort] raises on
    keys that cannot be ordered, [os.path] and [pathlib]).  A result that is
    a [dict] with an ["items"] or ["htmlLink"] key is given by the value of
    that key, [None] when the key is missing. *)
Record Google : Type := mk_google {
  g_expanduser : string -> string;
  g_parent : string -> string;
  g_repr : json -> string;
  g_unorderable : list (option string) -> string;
  g_exists : History -> string -> bool;
  g_load_token : History -> string -> list string -> outcome Credentials;
  g_refresh : History -> Credentials -> outcome Credentials;
  g_ensure_dir : History -> string -> outcome unit;
  g_write : History -> string -> string -> outcome unit;
  g_build : History -> Credentials -> outcome Service;
  g_now : History -> string;
  g_calendar_list : History -> Service -> outcome (option (list CalendarEntry));
  g_calendar_get : History -> Service -> json -> outcome CalendarEntry;
  g_events_list :
    History -> Service -> string -> string -> json -> outcome (option (list Event));
  g_events_insert : History -> Service -> json -> json -> outcome (option string)
}.

(** A call to the outside: answered from the history, then recorded. *)
Definition call {A : Type} (answer : History -> outcome A) (ev : gevent) : M History A :=
  fun h => (answer h, (h ++ [ev])%list).

(** [str(v)] for a value of the arguments. *)
Definition str (g : Google) (v : json) : string :=
  match v with
  | JNull => "None"
  | JBool true => "True"
  | JBool false => "False"
  | JInt z => NilZero.string_of_int (Z.to_int z)
  | JStr s => s
  | JList _ | JDict _ => g_repr g v
  end.

(** *** The tool *)

Definition SCOPES : list string := ["https://www.googleapis.com/auth/calendar"].

(** [GoogleCalendarConfig] of nanobot/config/schema.py, which is not among
    the sources: the fields the tool reads. *)
Record GoogleCalendarConfig : Type := mk_calendar_config {
  enabled : bool;
  credentials_path : string;
  token_path : string
}.

Record GoogleCalendarTool : Type := mk_tool { config : GoogleCalendarConfig }.

Definition name : string := "google_calendar".

Definition description : string := "Manage Google Calendar events (list, create).".

Definition string_property (text : string) : json :=
  JDict [("type", JStr "string"); ("description", JStr text)].

Definition parameters : dict json :=
  [("type", JStr "object");
   ("properties",
    JDict
      [("action",
        JDict [("type", JStr "string");
               ("enum", JList [JStr "list"; JStr "create"; JStr "list_calendars"]);
               ("description",
                JStr "Action to perform: 'list' (events), 'create' (event), or 'list_calendars'.")]);
       ("calendar_id",
        JDict [("type", JStr "string");
               ("description",
                JStr "Calendar ID to interact with. Default: 'all' for list (aggregates all), 'primary' for create.");
               ("default", JStr "all")]);
       ("max_results",
        JDict [("type", JStr "integer");
               ("description",
                JStr "Number of events to list (for 'list' action). Default 10.");
               ("default", JInt 10)]);
       ("summary", string_property "Title of the event (for 'create' action).");
       ("start_time",
        string_property
          "Start time in ISO format (e.g. '2023-10-27T10:00:00') (for 'create' action).");
       ("end_time", string_property "End time in ISO format (for 'create' action).");
       ("description",
        string_property "Description of the event (for 'create' action).")]);
   ("required", JList [JStr "action"])].

(** [GoogleCalendarTool._get_credentials]. *)
Definition _get_credentials (g : Google) (self : GoogleCalendarTool)
  : M History (option Credentials) :=
  let path := g_expanduser g (token_path (config self)) in
  present <- call (fun h => Returned (g_exists g h path)) (GExists path) ;;
  creds <- (if present : bool
            then c <- call (fun h => g_load_token g h path SCOPES)
                        (GLoadToken path SCOPES) ;;
                 ret (Some c)
            else ret None) ;;
  match creds with
  | None => ret None
  | Some c =>
      if valid c then ret (Some c)
      else if expired c && match refresh_token c with
                           | Some t => truthy_str t
                           | None => false
                           end
      then
        try_except
          (c' <- call (fun h => g_refresh g h c) (GRefresh c) ;;
           call (fun h => g_ensure_dir g h (g_parent g path))
             (GEnsureDir (g_parent g path)) ;;;
           call (fun h => g_write g h path (to_json c'))
             (GWrite path (to_json c')) ;;;
           ret (Some c'))
          (fun _ => ret None)
      else ret None
  end.

(** One line of [_list_calendars]. *)
Definition calendar_line (cal : CalendarEntry) : outcome string :=
  match cal_summary cal with
  | None => Raised (KeyError "summary")
  | Some summary =>
      match cal_id cal with
      | None => Raised (KeyError "id")
      | Some id => Returned ("- " ++ summary ++ " (ID: " ++ id ++ ")" ++ nl)
      end
  end.

(** The loop of [_list_calendars]: [result += line] for each calendar. *)
Fixpoint calendar_lines (result : string) (calendars : list CalendarEntry)
  : outcome string :=
  match calendars with
  | [] => Returned result
  | cal :: rest =>
      match calendar_line cal with
      | Raised e => Raised e
      | Returned line => calendar_lines (result ++ line) rest
      end
  end.

(** [GoogleCalendarTool._list_calendars]. *)
Definition _list_calendars (g : Google) (service : Service) : M History string :=
  items <- call (fun h => g_calendar_list g h service) (GCalendarList service) ;;
  match items with
  | None | Some [] => ret "No calendars found."
  | Some (cal :: rest) =>
      lift_outcome (calendar_lines ("Available Calendars:" ++ nl) (cal :: rest))
  end.

(** [get_start] of [_list_events]. *)
Definition get_start (e : Event) : outcome (option string) :=
  match ev_start e with
  | None => Raised (KeyError "start")
  | Some start =>
      Returned (match dateTime start with
                | Some d => Some d
                | None => date start
                end)
  end.

(** The keys of [list.sort(key=get_start)], computed before any comparison. *)
Fixpoint sort_keys (l : list TaggedEvent) : outcome (list (option string * TaggedEvent)) :=
  match l with
  | [] => Returned []
  | e :: rest =>
      match get_start (tagged_event e) with
      | Raised x => Raised x
      | Returned k =>
          match sort_keys rest with
          | Raised x => Raised x
          | Returned ks => Returned ((k, e) :: ks)
          end
      end
  end.

(** The keys, when every one of them is a string. *)
Fixpoint string_keys (l : list (option string * TaggedEvent))
  : option (list (string * TaggedEvent)) :=
  match l with
  | [] => Some []
  | (Some k, e) :: rest =>
      match string_keys rest with
      | Some ks => Some ((k, e) :: ks)
      | None => None
      end
  | (None, _) :: _ => None
  end.

(** A stable sort by key: an element goes before the first one whose key is
    not smaller than its own. *)
Fixpoint insert_sorted (x : string * TaggedEvent) (l : list (string * TaggedEvent))
  : list (string * TaggedEvent) :=
  match l with
  | [] => [x]
  | y :: rest =>
      if String.ltb (fst y) (fst x) then y :: insert_sorted x rest else x :: y :: rest
  end.

Fixpoint stable_sort (l : list (string * TaggedEvent)) : list (string * TaggedEvent) :=
  match l with
  | [] => []
  | x :: rest => insert_sorted x (stable_sort rest)
  end.

(** [all_events.sort(key=get_start)]: a list of one event is not compared;
    among two or more, a key that is [None] cannot be ordered. *)
Definition sort_events (g : Google) (l : list TaggedEvent) : outcome (list TaggedEvent) :=
  match sort_keys l with
  | Raised x => Raised x
  | Returned keyed =>
      match keyed with
      | [] | [_] => Returned l
      | _ :: _ :: _ =>
          match string_keys keyed with
          | Some ks => Returned (map snd (stable_sort ks))
          | None => Raised (TypeError (g_unorderable g (map fst keyed)))
          end
      end
  end.

(** One line of the result of [_list_events]. *)
Definition event_line (event : TaggedEvent) : outcome string :=
  match get_start (tagged_event event) with
  | Raised x => Raised x
  | Returned start =>
      Returned ("- " ++ str_opt start ++ " [" ++ _calendar_summary event ++ "]: "
                  ++ match ev_summary (tagged_event event) with
                     | Some summary => summary
                     | None => "(No Title)"
                     end ++ nl)
  end.

Fixpoint event_lines (result : string) (events : list TaggedEvent) : outcome string :=
  match events with
  | [] => Returned result
  | event :: rest =>
      match event_line event with
      | Raised x => Raised x
      | Returned line => event_lines (result ++ line) rest
      end
  end.

(** The loop of [_list_events] over [target_calendars]; [all_calendars] is
    [calendar_id == "all"]. *)
Fixpoint fetch_events (g : Google) (service : Service) (all_calendars : bool)
  (now : string) (max_results : json) (target_calendars : list CalendarEntry)
  (all_events : list TaggedEvent) : M History (list TaggedEvent) :=
  match target_calendars with
  | [] => ret all_events
  | calendar :: rest =>
      match cal_id calendar with
      | None => lift_outcome (Raised (KeyError "id"))
      | Some id =>
          let summary := match cal_summary calendar with
                         | Some s => s
                         | None => "Unknown"
                         end in
          if all_calendars
             && negb (match cal_selected calendar with Some b => b | None => false end)
             && negb (match cal_primary calendar with Some b => b | None => false end)
          then fetch_events g service all_calendars now max_results rest all_events
          else
            items <- try_except
                       (r <- call (fun h => g_events_list g h service id now max_results)
                               (GEventsList service id now max_results) ;;
                        ret (map (mk_tagged summary)
                               (match r with Some l => l | None => [] end)))
                       (fun _ => ret []) ;;
            fetch_events g service all_calendars now max_results rest
              (all_events ++ items)%list
      end
  end.

(** How [_list_events] ends, before the result is formatted. *)
Inductive listing : Type :=
| CalendarNotFound
| NoUpcomingEvents
| Upcoming (events : list TaggedEvent).

(** [_list_events] up to the sort and the cut. *)
Definition upcoming_events (g : Google) (service : Service) (max_results : json)
  (calendar_id : json) : M History listing :=
  now <- call (fun h => Returned (g_now g h)) GNow ;;
  targets <- (if eq_str calendar_id "all"
              then items <- call (fun h => g_calendar_list g h service)
                              (GCalendarList service) ;;
                   ret (Some (match items with Some l => l | None => [] end))
              else try_except
                     (meta <- call (fun h => g_calendar_get g h service calendar_id)
                                (GCalendarGet service calendar_id) ;;
                      ret (Some [meta]))
                     (fun _ => ret None)) ;;
  match targets with
  | None => ret CalendarNotFound
  | Some target_calendars =>
      all_events <- fetch_events g service (eq_str calendar_id "all") now max_results
                      target_calendars [] ;;
      match all_events with
      | [] => ret NoUpcomingEvents
      | _ :: _ =>
          sorted <- lift_outcome (sort_events g all_events) ;;
          cut <- lift_outcome (slice_to sorted max_results) ;;
          ret (Upcoming cut)
      end
  end.

(** [GoogleCalendarTool._list_events]. *)
Definition _list_events (g : Google) (service : Service) (max_results : json)
  (calendar_id : json) : M History string :=
  events <- upcoming_events g service max_results calendar_id ;;
  match events with
  | CalendarNotFound =>
      ret ("Error: Calendar ID '" ++ str g calendar_id ++ "' not found.")
  | NoUpcomingEvents => ret "No upcoming events found."
  | Upcoming events => lift_outcome (event_lines ("Upcoming events:" ++ nl) events)
  end.

(** The [body] of [_create_event]. *)
Definition event_body (summary start_time end_time description : json) : json :=
  JDict [("summary", summary);
         ("description", description);
         ("start", JDict [("dateTime", start_time)]);
         ("end", JDict [("dateTime", end_time)])].

(** [GoogleCalendarTool._create_event]. *)
Definition _create_event (g : Google) (service : Service)
  (calendar_id summary start_time end_time description : json) : M History string :=
  let event := event_body summary start_time end_time description in
  link <- call (fun h => g_events_insert g h service calendar_id event)
            (GEventsInsert service calendar_id event) ;;
  ret ("Event created: " ++ str_opt link).

(** The [if]/[elif] chain of [execute], once the service is built. *)
Definition dispatch (g : Google) (service : Service) (action : json)
  (kwargs : dict json) : M History string :=
  if eq_str action "list_calendars" then _list_calendars g service
  else if eq_str action "list" then
    let calendar_id := dict_get kwargs "calendar_id" (JStr "all") in
    _list_events g service (dict_get kwargs "max_results" (JInt 10)) calendar_id
  else if eq_str action "create" then
    let summary := dict_get kwargs "summary" JNull in
    let start := dict_get kwargs "start_time" JNull in
    let end_ := dict_get kwargs "end_time" JNull in
    let desc := dict_get kwargs "description" JNull in
    let calendar_id := dict_get kwargs "calendar_id" (JStr "primary") in
    if negb (truthy summary && truthy start && truthy end_) then
      ret "Missing required parameters for 'create': summary, start_time, end_time."
    else _create_event g service calendar_id summary start end_ desc
  else ret ("Unknown action: " ++ str g action).

(** The text of the request to authenticate. *)
Definition authentication_required (self : GoogleCalendarTool) : string :=
  "Authentication required. Please:" ++ nl
    ++ "1. Place the OAuth client secrets JSON (downloaded from Google Cloud Console) at "
    ++ credentials_path (config self) ++ nl
    ++ "2. Run the setup script to generate the token (or ensure 'token.json' exists at "
    ++ token_path (config self) ++ ").".

(** [GoogleCalendarTool.execute]. *)
Definition execute (g : Google) (self : GoogleCalendarTool) (kwargs : dict json)
  : M History string :=
  if negb (enabled (config self)) then
    ret "Google Calendar tool is disabled in configuration."
  else
    let action := dict_get kwargs "action" JNull in
    if negb (truthy action) then ret "Missing required parameter: 'action'."
    else
      creds <- _get_credentials g self ;;
      match creds with
      | None => ret (authentication_required self)
      | Some creds =>
          try_except
            (service <- call (fun h => g_build g h creds) (GBuild creds) ;;
             dispatch g service action kwargs)
            (fun e => ret ("Error executing Google Calendar action: " ++ exn_msg e))
      end.

(** *** What the properties speak of *)

(** The key an event is sorted by, when it is a string. *)
Definition start_key (e : TaggedEvent) : string :=
  match get_start (tagged_event e) with
  | Returned (Some k) => k
  | Returned None | Raised _ => ""
  end.

(** Keys, and events by their key, in non-decreasing order; strings are
    ordered character by character, by character code. *)
Definition by_key (x y : string * TaggedEvent) : Prop :=
  String.leb (fst x) (fst y) = true.

Definition by_start (a b : TaggedEvent) : Prop :=
  String.leb (start_key a) (start_key b) = true.

(** Whether the loop of [_list_events] asks for the events of a calendar. *)
Definition queried (all_calendars : bool) (calendar : CalendarEntry) : bool :=
  negb (all_calendars
        && negb (match cal_selected calendar with Some b => b | None => false end)
        && negb (match cal_primary calendar with Some b => b | None => false end)).

(** The name under which the events of a calendar are listed. *)
Definition listed_as (calendar : CalendarEntry) : string :=
  match cal_summary calendar with
  | Some s => s
  | None => "Unknown"
  end.

(** The line of [_list_calendars] for a calendar that has a summary and an
    id. *)
Definition line_of (summary id : string) : string :=
  "- " ++ summary ++ " (ID: " ++ id ++ ")" ++ nl.

(** A calendar that is selected, or the primary one. *)
Definition shown (calendar : CalendarEntry) : bool :=
  match cal_selected calendar with Some b => b | None => false end
  || match cal_primary calendar with Some b => b | None => false end.

(** Whether a call writes a file. *)
Definition is_write (ev : gevent) : bool :=
  match ev with
  | GWrite _ _ => true
  | _ => false
  end.

(** *** Situations *)

Definition a_token : Credentials := mk_creds true false (Some "r") "{fresh}".


Definition a_tool : GoogleCalendarTool :=
  mk_tool (mk_calendar_config true "~/credentials.json" "~/token.json").

Definition an_event (start summary : string) : Event :=
  mk_event (Some (mk_time (Some start) None)) (Some summary).

(** A machine on which the token file is present when [token] is given, and
    an account with the calendars [calendars], whose events are [events]. *)
Definition a_google (token : option (outcome Credentials)) (calendars : list CalendarEntry)
  (events : string -> outcome (option (list Event))) : Google :=
  mk_google (fun p => p) (fun p => "~") (fun _ => "[...]")
    (fun _ => "'<' not supported between instances of 'NoneType' and 'str'")
    (fun _ _ => match token with Some _ => true | None => false end)
    (fun _ _ _ => match token with Some t => t | None => Raised (mk_exn "OSError" "") end)
    (fun _ _ => Returned a_token)
    (fun _ _ => Returned tt)
    (fun _ _ _ => Returned tt)
    (fun _ c => Returned (mk_service c))
    (fun _ => "2024-01-01T00:00:00+00:00")
    (fun _ _ => Returned (Some calendars))
    (fun _ _ _ => Raised (mk_exn "HttpError" "Not Found"))
    (fun _ _ id _ _ => events id)
    (fun _ _ _ _ => Returned (Some "https://calendar/event")).

Definition work : CalendarEntry := mk_calendar (Some "work") (Some "Work") (Some true) None.

Definition hidden : CalendarEntry := mk_calendar (Some "hidden") (Some "Hidden") None None.

Definition home : CalendarEntry := mk_calendar (Some "home") None None (Some true).

Definition some_events (id : string) : outcome (option (list Event)) :=
  if String.eqb id "work" then
    Returned (Some [an_event "2024-02-01" "review"; an_event "2024-01-10" "standup"])
  else if String.eqb id "home" then
    Returned (Some [an_event "2024-01-10" "dentist"])
  else Raised (mk_exn "HttpError" "Forbidden").

End Calendar.

(** ** The wording of the specification, for comparison with the code *)

Module Spec.

(** The error result of [execute], in the specification's words:
    "Error calling tool '<capability>' on server '<server>': <cause>". *)
Definition error_string (capability server cause : string) : string :=
  "Error calling tool '" ++ capability ++ "' on server '" ++ server ++ "': " ++ cause.

(** The generated description, in the specification's words:
    "capability `<capability>` from server `<server>`". *)
Definition default_description (capability server : string) : string :=
  "capability `" ++ capability ++ "` from server `" ++ server ++ "`".

(** "Join all text-bearing blocks' text with newline separators, in order;
    stringify any non-text block." *)
Fixpoint joined (blocks : list ContentBlock) : string :=
  match blocks with
  | [] => ""
  | TextBlock text :: [] => text
  | OtherBlock str :: [] => str
  | TextBlock text :: rest => text ++ Py.nl ++ joined rest
  | OtherBlock str :: rest => str ++ Py.nl ++ joined rest
  end.

(** "If the joined result is empty (zero blocks or all blocks empty), return
    the literal sentinel": the result the specification asks of a successful
    call. *)
Definition normalized (blocks : list ContentBlock) : string :=
  if Py.truthy_str (joined blocks) then joined blocks else "(empty result)".

End Spec.

(** ** The situations of tests/test_mcp.py *)

Module Scenarios.

Import Tools Client Obs.

Definition ConnectionError (msg : string) : exn := mk_exn "ConnectionError" msg.

(** A client on which every call succeeds: [list_tools] reports [tools] and
    [call_tool] answers [blocks]. *)
Definition w_serving (tools : list RemoteTool) (blocks : list ContentBlock) : World :=
  mk_world (fun _ _ => Returned tt) (fun _ _ => Returned tools)
    (fun _ _ => Returned tt) (fun _ _ _ _ => Returned (mk_result blocks)).

(** A client whose session cannot be opened, nor used, nor closed. *)
Definition w_down (msg : string) : World :=
  mk_world (fun _ _ => Raised (ConnectionError msg))
    (fun _ _ => Raised (ConnectionError msg))
    (fun _ _ => Raised (ConnectionError msg))
    (fun _ _ _ _ => Raised (ConnectionError msg)).

(** A client on which every awaited call ends in the cancellation of the
    task. *)
Definition w_cancelled : World :=
  mk_world (fun _ _ => Raised CancelledError) (fun _ _ => Raised CancelledError)
    (fun _ _ => Raised CancelledError) (fun _ _ _ _ => Raised CancelledError).


(** A client whose session opens and lists [tools], and whose [__aexit__]
    raises. *)
Definition w_bad_close (tools : list RemoteTool) : World :=
  mk_world (fun _ _ => Returned tt) (fun _ _ => Returned tools)
    (fun _ _ => Raised (mk_exn "RuntimeError" "close failed"))
    (fun _ _ _ _ => Returned (mk_result [])).

Definition a_client : Client := mk_client (StreamableHttpTransport "http://x/mcp" (Some [])).

(** [_make_adapter(server="srv", tool="t", client=mock_client)]. *)
Definition an_adapter : McpToolAdapter :=
  McpToolAdapter_init "srv" "t" "Say hello"
    [("type", JStr "object");
     ("properties", JDict [("name", JDict [("type", JStr "string")])]);
     ("required", JList [JStr "name"])]
    a_client.

Definition http_server (u : string) : McpServerConfig :=
  mk_server_config true "http" u (Some []) "" (Some []) (Some []).

Definition disabled_server (u : string) : McpServerConfig :=
  mk_server_config false "http" u (Some []) "" (Some []) (Some []).

Definition a_tool : RemoteTool := mk_remote_tool "t" (Some "d") (Some []).

Definition websocket_server : McpServerConfig :=
  mk_server_config true "websocket" "" (Some []) "" (Some []) (Some []).

Definition stdio_server (cmd : string) (argv : list string) : McpServerConfig :=
  mk_server_config true "stdio" "" None cmd (Some argv) None.

(** [test_manager_start_idempotent] and [test_manager_stop_cleans_up]. *)
Definition one_server_cfg : McpConfig := mk_config [("s", http_server "http://x/mcp")].


(** [test_manager_start_skips_disabled_server]. *)
Definition disabled_cfg : McpConfig :=
  mk_config [("off", disabled_server "http://localhost/mcp")].

(** One server of a transport type the manager does not know. *)
Definition websocket_cfg : McpConfig := mk_config [("ws", websocket_server)].

(** The same server, followed by one that can be reached. *)
Definition mixed_cfg : McpConfig :=
  mk_config [("ws", websocket_server); ("s", http_server "http://x/mcp")].

(** A client whose session opens and closes, and whose [list_tools] raises. *)
Definition w_no_listing (msg : string) : World :=
  mk_world (fun _ _ => Returned tt) (fun _ _ => Raised (mk_exn "McpError" msg))
    (fun _ _ => Returned tt) (fun _ _ _ _ => Returned (mk_result [])).


(** A manager on which [start] opened two sessions. *)
Definition two_sessions : State :=
  snd (start (w_serving [a_tool] [])
         (fresh (mk_config [("s1", http_server "http://a/mcp");
                            ("s2", stdio_server "node" ["s.js"])]))).

End Scenarios.

(** * Properties *)

(** ** Strings and the monad *)

Module PyFacts.

Lemma append_empty_r (s : string) : s ++ "" = s.
Proof. induction s as [|a s IH]; simpl; [reflexivity | now rewrite IH]. Qed.

Lemma append_assoc (a b c : string) : (a ++ b) ++ c = a ++ (b ++ c).
Proof. induction a as [|x a IH]; simpl; [reflexivity | now rewrite IH]. Qed.

Lemma length_append (a b : string) :
  String.length (a ++ b) = String.length a + String.length b.
Proof. induction a as [|x a IH]; simpl; [reflexivity | now rewrite IH]. Qed.

Lemma append_inv_l (a b c : string) : a ++ b = a ++ c -> b = c.
Proof.
  induction a as [|x a IH]; simpl; intros H; [exact H|].
  injection H as H. now apply IH.
Qed.

Lemma append_inv_r (c a b : string) : a ++ c = b ++ c -> a = b.
Proof.
  revert b; induction a as [|x a IH]; intros [|y b] H; simpl in H.
  - reflexivity.
  - apply (f_equal String.length) in H. simpl in H.
    rewrite length_append in H. lia.
  - apply (f_equal String.length) in H. simpl in H.
    rewrite length_append in H. lia.
  - injection H as Hxy H. subst y. f_equal. now apply IH.
Qed.

Lemma prefix_append (a b : string) : String.prefix a (a ++ b) = true.
Proof.
  induction a as [|x a IH]; simpl.
  - now destruct b.
  - destruct (ascii_dec x x) as [_|N]; [exact IH | now elim N].
Qed.

Lemma prefix_split (a s : string) :
  String.prefix a s = true -> exists post, s = a ++ post.
Proof.
  revert s; induction a as [|x a IH]; intros s H.
  - now exists s.
  - destruct s as [|y s]; simpl in H; [discriminate|].
    destruct (ascii_dec x y) as [E|_]; [|discriminate].
    destruct (IH s H) as [post ->]. subst y. now exists post.
Qed.

Lemma str_in_unfold (sub s : string) :
  str_in sub s =
  String.prefix sub s ||
  match s with EmptyString => false | String _ s' => str_in sub s' end.
Proof. destruct s; reflexivity. Qed.

(** [sub in s] holds exactly when [s] is [pre + sub + post]. *)
Lemma str_in_intro (pre sub post : string) : str_in sub (pre ++ sub ++ post) = true.
Proof.
  induction pre as [|x pre IH].
  - change ("" ++ sub ++ post) with (sub ++ post).
    rewrite str_in_unfold, prefix_append. reflexivity.
  - change (String x pre ++ sub ++ post) with (String x (pre ++ sub ++ post)).
    rewrite str_in_unfold, IH. apply orb_true_r.
Qed.

Lemma str_in_elim (sub s : string) :
  str_in sub s = true -> exists pre post, s = pre ++ sub ++ post.
Proof.
  induction s as [|x s IH]; rewrite str_in_unfold; intros H.
  - rewrite orb_false_r in H. destruct (prefix_split _ _ H) as [post E].
    now exists "", post.
  - apply orb_true_iff in H. destruct H as [H|H].
    + destruct (prefix_split _ _ H) as [post E]. now exists "", post.
    + destruct (IH H) as (pre & post & ->). now exists (String x pre), post.
Qed.

Lemma str_in_prefix (sub post : string) : str_in sub (sub ++ post) = true.
Proof. exact (str_in_intro "" sub post). Qed.

Lemma str_in_suffix (pre sub : string) : str_in sub (pre ++ sub) = true.
Proof.
  rewrite <- (append_empty_r sub) at 2. apply str_in_intro.
Qed.

Lemma truthy_str_false (s : string) : truthy_str s = false <-> s = "".
Proof. destruct s; simpl; split; congruence. Qed.

(** [for x in l1 + l2] is the loop over [l1] followed by the loop over [l2]. *)
Lemma for_each_app {S A : Type} (l1 l2 : list A) (body : A -> M S unit) (s : S) :
  for_each (l1 ++ l2) body s =
  match for_each l1 body s with
  | (Returned _, s') => for_each l2 body s'
  | (Raised e, s') => (Raised e, s')
  end.
Proof.
  revert s; induction l1 as [|x l1 IH]; intros s; simpl; [reflexivity|].
  unfold bind. destruct (body x s) as [[[]|e] s']; [apply IH | reflexivity].
Qed.

(** A loop stops at the first iteration that raises. *)
Lemma for_each_cons {S A : Type} (x : A) (l : list A) (body : A -> M S unit) (s : S) :
  for_each (x :: l) body s =
  if is_raised (fst (body x s)) then body x s else for_each l body (snd (body x s)).
Proof.
  simpl. unfold bind. destruct (body x s) as [[[]|e] s']; reflexivity.
Qed.

(** A loop whose iterations all return, returns. *)
Lemma for_each_returns {S A : Type} (l : list A) (body : A -> M S unit) :
  (forall x s, fst (body x s) = Returned tt) ->
  forall s, fst (for_each l body s) = Returned tt.
Proof.
  intros Hbody; induction l as [|x l IH]; intros s; simpl; [reflexivity|].
  unfold bind. specialize (Hbody x s).
  destruct (body x s) as [o s']; simpl in Hbody; subst o. apply IH.
Qed.

End PyFacts.

(** ** The tool adapter *)

Module ToolsProps.

Import Tools Scenarios PyFacts.

(** [execute], by the two ways the forwarded call can end. *)
Lemma execute_unfold (w : World) (self : McpToolAdapter) (kwargs : dict json)
  (rt : Runtime) :
  execute w self kwargs rt =
  let called := record_io (EvCallTool (_client self) (_tool_name self) kwargs) rt in
  match w_call_tool w (io rt) (_client self) (_tool_name self) kwargs with
  | Returned result =>
      (Returned (join_parts (map block_part (content result))), called)
  | Raised e =>
      if is_exception e then
        (Returned ("Error calling MCP tool '" ++ _tool_name self ++ "' on server '"
                     ++ _server_name self ++ "': " ++ exn_msg e),
         record_log
           (mk_log WARNING
              ("MCP tool " ++ name self ++ " execution failed: " ++ exn_msg e))
           called)
      else (Raised e, called)
  end.
Proof.
  unfold execute, try_except, bind, call_tool, await, logger, modify, ret.
  destruct (w_call_tool w (io rt) (_client self) (_tool_name self) kwargs) as [r|e];
    [reflexivity|]. destruct (is_exception e); reflexivity.
Qed.

(** The join of the source is the join the specification describes. *)
Lemma concat_block_parts (blocks : list ContentBlock) :
  String.concat nl (map block_part blocks) = Spec.joined blocks.
Proof.
  induction blocks as [|b blocks IH]; [reflexivity|].
  destruct blocks as [|b' blocks].
  - destruct b; reflexivity.
  - change (String.concat nl (map block_part (b :: b' :: blocks)))
      with (block_part b ++ nl ++ String.concat nl (map block_part (b' :: blocks))).
    rewrite IH. destruct b; reflexivity.
Qed.

Lemma name_init (s c d : string) (sch : dict json) (cl : Client) :
  name (McpToolAdapter_init s c d sch cl) = "mcp__" ++ s ++ "__" ++ c.
Proof. reflexivity. Qed.

(** Two servers exposing a tool of the same local name get different names. *)
Lemma name_inj_server (s1 s2 c d1 d2 : string) (sch1 sch2 : dict json)
  (cl1 cl2 : Client) :
  name (McpToolAdapter_init s1 c d1 sch1 cl1) = name (McpToolAdapter_init s2 c d2 sch2 cl2) ->
  s1 = s2.
Proof.
  rewrite !name_init. intros H. apply append_inv_l in H.
  rewrite <- !append_assoc in H. apply append_inv_r, append_inv_r in H. exact H.
Qed.

(** Two tools of one server get different names. *)
Lemma name_inj_tool (s c1 c2 d1 d2 : string) (sch1 sch2 : dict json)
  (cl1 cl2 : Client) :
  name (McpToolAdapter_init s c1 d1 sch1 cl1) = name (McpToolAdapter_init s c2 d2 sch2 cl2) ->
  c1 = c2.
Proof.
  rewrite !name_init. intros H.
  apply append_inv_l, append_inv_l, append_inv_l in H. exact H.
Qed.

Lemma no_underscore_cons (a : ascii) (s : string) :
  no_underscore (String a s) = true -> a <> "_"%char /\ no_underscore s = true.
Proof.
  unfold no_underscore. rewrite str_in_unfold. cbn [String.prefix].
  destruct (ascii_dec "_" a) as [E|N].
  - destruct s; discriminate.
  - cbn [orb]. intros H. split; [congruence | exact H].
Qed.

(** X9. When no underscore occurs in the names of the two servers, adapters
    with the same name are adapters of the same server and the same tool:
    the names of different (server, tool) pairs differ. *)
Lemma name_inj_plain_servers (s1 s2 c1 c2 d1 d2 : string) (sch1 sch2 : dict json)
  (cl1 cl2 : Client) :
  no_underscore s1 = true -> no_underscore s2 = true ->
  name (McpToolAdapter_init s1 c1 d1 sch1 cl1) = name (McpToolAdapter_init s2 c2 d2 sch2 cl2) ->
  s1 = s2 /\ c1 = c2.
Proof.
  rewrite !name_init. intros P1 P2 H. apply append_inv_l in H.
  revert s2 P2 H; induction s1 as [|a s1 IH]; intros [|b s2] P2 H.
  - now injection H as H.
  - apply no_underscore_cons in P2. destruct P2 as [Hb _]. simpl in H. congruence.
  - apply no_underscore_cons in P1. destruct P1 as [Ha _]. simpl in H. congruence.
  - injection H as -> H.
    apply no_underscore_cons in P1, P2.
    destruct (IH (proj2 P1) s2 (proj2 P2) H) as [-> ->]. now split.
Qed.

(** C1 (as the code has it). When the forwarded call returns, [execute]
    returns the normalized remote result.  When it raises an instance [e] of
    [Exception], [execute] returns the string
    "Error calling MCP tool '<tool>' on server '<server>': <str(e)>", which
    contains "Error calling" and the message of [e]; in these cases [execute]
    does not raise.  An exception that is not an instance of [Exception], such
    as the cancellation of the task during the call, is not caught: [execute]
    raises it.  The call is forwarded under the tool's own name, not the
    namespaced one. *)
Theorem execute_returns_a_string_or_propagates (w : World) (self : McpToolAdapter)
  (kwargs : dict json) (rt : Runtime) :
  match w_call_tool w (io rt) (_client self) (_tool_name self) kwargs with
  | Returned result =>
      fst (execute w self kwargs rt)
      = Returned (join_parts (map block_part (content result)))
  | Raised e =>
      if is_exception e then
        exists s : string,
          fst (execute w self kwargs rt) = Returned s
          /\ s = "Error calling MCP tool '" ++ _tool_name self ++ "' on server '"
                   ++ _server_name self ++ "': " ++ exn_msg e
          /\ str_in "Error calling" s = true
          /\ str_in (exn_msg e) s = true
      else fst (execute w self kwargs rt) = Raised e
  end.
Proof.
  rewrite execute_unfold.
  destruct (w_call_tool w (io rt) (_client self) (_tool_name self) kwargs) as [r|e];
    [reflexivity|].
  destruct (is_exception e); [|reflexivity].
  eexists. split; [reflexivity|]. split; [reflexivity|]. split.
  - apply (str_in_prefix "Error calling").
  - rewrite <- !append_assoc. apply str_in_suffix.
Qed.

(** C1, the claim as stated fails: on a client that is down the result is not
    "Error calling tool 't' on server 'srv': server down"; and when the task
    is cancelled during the call, [execute] raises. *)
Lemma execute_error_is_not_the_specified_string :
  w_call_tool (w_down "server down") [] a_client "t" [("name", JStr "X")]
    = Raised (ConnectionError "server down")
  /\ fst (execute (w_down "server down") an_adapter [("name", JStr "X")] runtime0)
     <> Returned (Spec.error_string "t" "srv" "server down")
  /\ fst (execute w_cancelled an_adapter [("name", JStr "X")] runtime0)
     = Raised CancelledError.
Proof.
  split; [reflexivity|]. split; [|reflexivity]. vm_compute. intros H. discriminate H.
Qed.

(** C2. The public name is ["mcp__" + server + "__" + tool] for every
    adapter; yet the names of two different (server, tool) pairs can be equal:
    tool "b__c" of server "a" and tool "c" of server "a__b" are both
    "mcp__a__b__c". *)
Theorem name_format_and_collision :
  (forall (s c d : string) (sch : dict json) (cl : Client),
      name (McpToolAdapter_init s c d sch cl) = "mcp__" ++ s ++ "__" ++ c)
  /\ ("a", "b__c") <> ("a__b", "c")
  /\ name (McpToolAdapter_init "a" "b__c" "" [] a_client)
     = name (McpToolAdapter_init "a__b" "c" "" [] a_client).
Proof.
  split; [intros; reflexivity|]. split; [discriminate | reflexivity].
Qed.

(** C3 (as the code has it). When the forwarded call returns content blocks,
    [execute] returns "(empty result)" if there is no block, and otherwise the
    texts of the blocks (the [str()] of a block without text) joined by
    newlines in block order. *)
Theorem execute_joins_blocks (w : World) (self : McpToolAdapter)
  (kwargs : dict json) (rt : Runtime) (result : CallToolResult) :
  w_call_tool w (io rt) (_client self) (_tool_name self) kwargs = Returned result ->
  fst (execute w self kwargs rt) =
  Returned (match content result with
            | [] => "(empty result)"
            | _ :: _ => Spec.joined (content result)
            end).
Proof.
  intros H. rewrite execute_unfold, H. cbn [fst]. f_equal.
  rewrite <- concat_block_parts. now destruct (content result).
Qed.

(** Blocks ["Line 1", "Line 2"] give exactly "Line 1\nLine 2". *)
Lemma execute_joins_blocks_witness :
  fst (execute (w_serving [] [TextBlock "Line 1"; TextBlock "Line 2"]) an_adapter
         [("name", JStr "Bob")] runtime0)
  = Returned ("Line 1" ++ nl ++ "Line 2").
Proof.
  exact (execute_joins_blocks
           (w_serving [] [TextBlock "Line 1"; TextBlock "Line 2"]) an_adapter
           [("name", JStr "Bob")] runtime0 _ eq_refl).
Defined.

(** C3, the claim as stated fails: one block with empty text joins to the
    empty string, and [execute] returns that empty string, not the sentinel. *)
Lemma execute_empty_text_is_not_the_sentinel :
  Spec.joined [TextBlock ""] = ""
  /\ Spec.normalized [TextBlock ""] = "(empty result)"
  /\ fst (execute (w_serving [] [TextBlock ""]) an_adapter [] runtime0) = Returned ""
  /\ fst (execute (w_serving [] [TextBlock ""]) an_adapter [] runtime0)
     <> Returned (Spec.normalized [TextBlock ""]).
Proof.
  repeat split; try reflexivity. vm_compute. intros H. discriminate H.
Qed.

(** C9 (as the code has it). An adapter constructed with an empty description
    has the description "MCP tool <tool> from <server>", which contains the
    tool's name and the server's name; and no adapter has an empty
    description. *)
Theorem default_description_names_tool_and_server (s c : string)
  (sch : dict json) (cl : Client) :
  description (McpToolAdapter_init s c "" sch cl) = "MCP tool " ++ c ++ " from " ++ s
  /\ str_in c (description (McpToolAdapter_init s c "" sch cl)) = true
  /\ str_in s (description (McpToolAdapter_init s c "" sch cl)) = true
  /\ forall d : string, description (McpToolAdapter_init s c d sch cl) <> "".
Proof.
  split; [reflexivity|]. split; [|split].
  - apply (str_in_intro "MCP tool " c).
  - change (description (McpToolAdapter_init s c "" sch cl))
      with ("MCP tool " ++ c ++ " from " ++ s).
    rewrite <- !append_assoc. apply str_in_suffix.
  - intros d. unfold description, McpToolAdapter_init, or_str; cbn [_description].
    destruct d; simpl; discriminate.
Qed.

(** C9, the claim as stated fails: the generated description is not
    "capability `t` from server `s`". *)
Lemma default_description_is_not_the_specified_string :
  description (McpToolAdapter_init "s" "t" "" [] a_client) = "MCP tool t from s"
  /\ Spec.default_description "t" "s" = "capability `t` from server `s`"
  /\ description (McpToolAdapter_init "s" "t" "" [] a_client)
     <> Spec.default_description "t" "s".
Proof.
  split; [reflexivity|]. split; [reflexivity|].
  vm_compute. intros H. discriminate H.
Qed.

End ToolsProps.

(** ** The client manager *)

Module ClientProps.

Import Tools Client Obs Scenarios PyFacts.

Lemma or_list_nil {A : Type} (x : option (list A)) :
  or_list x [] = match x with Some l => l | None => [] end.
Proof. destruct x as [[|a l]|]; reflexivity. Qed.

(** *** The loop of [start], one server at a time *)

Lemma discover_loop (n : string) (client : Client) (tools : list RemoteTool) (s : State) :
  for_each tools
    (fun tool => update (fun m => set_tools (_tools m ++ [adapter_of n client tool]) m)) s
  = (Returned tt, discovered n client tools s).
Proof.
  revert s; induction tools as [|t tools IH]; intros [[cfg cl cx ts st] r].
  - unfold discovered, set_tools; simpl. now rewrite app_nil_r.
  - simpl. unfold bind, update, modify. rewrite IH.
    unfold discovered, set_tools; simpl. now rewrite <- app_assoc.
Qed.

(** The [try] body, by the point where it can fail. *)
Lemma connect_server_eq (w : World) (n : string) (c : McpServerConfig) (s : State) :
  connect_server w n c s =
  match _build_transport n c with
  | Raised e => (Raised e, s)
  | Returned t =>
      let client := mk_client t in
      let s1 := awaited (EvEnter client) s in
      match w_aenter w (io (rt s)) client with
      | Raised e => (Raised e, s1)
      | Returned _ =>
          let s2 := awaited (EvListTools client) (registered n client s1) in
          match w_list_tools w (io (rt s1)) client with
          | Raised e => (Raised e, s2)
          | Returned tools =>
              (Returned tt,
               discovered n client tools
                 (logged INFO
                    ("MCP server '" ++ n ++ "': connected, "
                       ++ str_of_nat (List.length tools) ++ " tool(s) found") s2))
          end
      end
  end.
Proof.
  unfold connect_server, bind at 1, lift_outcome.
  destruct (_build_transport n c) as [t|e]; [|reflexivity].
  unfold bind at 1, zoom at 1, aenter, await.
  destruct (w_aenter w (io (rt s)) (mk_client t)) as [[]|e]; [|reflexivity].
  unfold bind at 1, update at 1, modify. unfold bind at 1, update at 1, modify.
  unfold bind at 1, zoom at 1, list_tools, await.
  cbn [awaited registered rt self io].
  destruct (w_list_tools w (io (record_io (EvEnter (mk_client t)) (rt s))) (mk_client t))
    as [tools|e]; [|reflexivity].
  unfold bind at 1, zoom at 1, logger, modify. cbn [rt self].
  rewrite discover_loop. reflexivity.
Qed.

(** What [_build_transport] raises is an instance of [Exception]. *)
Lemma build_transport_exception (n : string) (c : McpServerConfig) (e : exn) :
  _build_transport n c = Raised e -> is_exception e = true.
Proof.
  unfold _build_transport.
  repeat match goal with |- context [if ?b then _ else _] => destruct b end;
    intros H; try discriminate H; injection H as <-; reflexivity.
Qed.

(** Where no connection and no discovery is interrupted, so is what the [try]
    body raises. *)
Lemma connect_server_exception (w : World) (n : string) (c : McpServerConfig)
  (s s' : State) (e : exn) :
  calm_start w -> connect_server w n c s = (Raised e, s') -> is_exception e = true.
Proof.
  intros [Ha Hl]. rewrite connect_server_eq.
  destruct (_build_transport n c) as [t|e0] eqn:Hbt.
  2:{ intros [= <- _]. exact (build_transport_exception _ _ _ Hbt). }
  cbv zeta. destruct (w_aenter w (io (rt s)) (mk_client t)) as [[]|e0] eqn:Hopen.
  2:{ intros [= <- _]. exact (Ha _ _ _ Hopen). }
  destruct (w_list_tools w _ (mk_client t)) as [tools|e0] eqn:Hlist.
  - discriminate.
  - intros [= <- _]. exact (Hl _ _ _ Hlist).
Qed.

(** An iteration: the handler gets the instances of [Exception], anything
    else leaves the loop. *)
Lemma start_server_eq (w : World) (n : string) (c : McpServerConfig) (s : State) :
  start_server w (n, c) s =
  if negb (enabled c) then
    (Returned tt, logged INFO ("MCP server '" ++ n ++ "' is disabled, skipping") s)
  else
    match connect_server w n c s with
    | (Returned _, s') => (Returned tt, s')
    | (Raised e, s') =>
        if is_exception e then (Returned tt, warned n e s') else (Raised e, s')
    end.
Proof.
  unfold start_server. destruct (enabled c); simpl; [|reflexivity].
  unfold try_except. destruct (connect_server w n c s) as [[[]|e] s']; reflexivity.
Qed.

(** What an iteration raises is not an instance of [Exception]. *)
Lemma start_server_raises (w : World) (x : string * McpServerConfig) (s : State) (e : exn) :
  fst (start_server w x s) = Raised e -> is_exception e = false.
Proof.
  destruct x as [n c]. rewrite start_server_eq.
  destruct (negb (enabled c)); [discriminate|].
  destruct (connect_server w n c s) as [[[]|e0] s']; [discriminate|].
  destruct (is_exception e0) eqn:He; [discriminate|]. now intros [= <-].
Qed.

(** Where no connection and no discovery is interrupted, an iteration of the
    loop returns. *)
Lemma start_server_returns (w : World) (x : string * McpServerConfig) (s : State) :
  calm_start w -> fst (start_server w x s) = Returned tt.
Proof.
  intros Hc. destruct x as [n c]. rewrite start_server_eq.
  destruct (negb (enabled c)); [reflexivity|].
  destruct (connect_server w n c s) as [[[]|e] s'] eqn:E; [reflexivity|].
  now rewrite (connect_server_exception w n c s s' e Hc E).
Qed.

Lemma loop_returns (w : World) (l : dict McpServerConfig) (s : State) :
  calm_start w -> for_each l (start_server w) s = (Returned tt, run_servers w l s).
Proof.
  intros Hc. unfold run_servers.
  pose proof (for_each_returns l (start_server w)
                (fun x s0 => start_server_returns w x s0 Hc) s) as H.
  destruct (for_each l (start_server w) s) as [o s']; simpl in *. now subst o.
Qed.

(** The loop stops at the first iteration that raises. *)
Lemma run_servers_cons (w : World) (x : string * McpServerConfig)
  (l : dict McpServerConfig) (s : State) :
  run_servers w (x :: l) s =
  if is_raised (fst (start_server w x s)) then snd (start_server w x s)
  else run_servers w l (snd (start_server w x s)).
Proof.
  unfold run_servers. rewrite for_each_cons.
  now destruct (is_raised (fst (start_server w x s))).
Qed.

(** A loop that returned: each of its iterations returned. *)
Lemma loop_returned_cons (w : World) (x : string * McpServerConfig)
  (l : dict McpServerConfig) (s : State) :
  is_raised (fst (for_each (x :: l) (start_server w) s)) = false ->
  is_raised (fst (start_server w x s)) = false
  /\ is_raised (fst (for_each l (start_server w) (snd (start_server w x s)))) = false.
Proof.
  rewrite for_each_cons.
  destruct (is_raised (fst (start_server w x s))) eqn:E; intros H.
  - rewrite E in H. discriminate H.
  - now split.
Qed.

Lemma run_servers_app (w : World) (l1 l2 : dict McpServerConfig) (s : State) :
  calm_start w ->
  run_servers w (l1 ++ l2)%list s = run_servers w l2 (run_servers w l1 s).
Proof.
  intros Hc. unfold run_servers at 1.
  rewrite for_each_app, (loop_returns w l1 s Hc), (loop_returns w l2 _ Hc).
  reflexivity.
Qed.

(** [start] on a manager that is not started: an exception that leaves the
    loop leaves [start], with the manager not marked started. *)
Lemma start_idle (w : World) (s : State) :
  _started (self s) = false ->
  start w s =
  match fst (for_each (servers (_config (self s))) (start_server w) (begin s)) with
  | Returned _ =>
      (Returned (_tools (self (run_servers w (servers (_config (self s))) (begin s)))),
       finish (run_servers w (servers (_config (self s))) (begin s)))
  | Raised e => (Raised e, run_servers w (servers (_config (self s))) (begin s))
  end.
Proof.
  intros H. unfold start, bind at 1, get. rewrite H.
  unfold bind at 1, update at 1, modify. fold (begin s).
  unfold bind at 1, run_servers.
  destruct (for_each (servers (_config (self s))) (start_server w) (begin s))
    as [[[]|e] s']; reflexivity.
Qed.

(** [start] on a started manager. *)
Lemma start_started (w : World) (s : State) :
  _started (self s) = true -> start w s = (Returned (_tools (self s)), s).
Proof.
  intros H. unfold start, bind, get. now rewrite H.
Qed.

(** A [start] that returned on a manager that was not started: its loop
    returned. *)
Lemma start_idle_returned (w : World) (s : State) :
  _started (self s) = false ->
  is_raised (fst (start w s)) = false ->
  is_raised (fst (for_each (servers (_config (self s))) (start_server w) (begin s))) = false
  /\ start w s =
     (Returned (_tools (self (run_servers w (servers (_config (self s))) (begin s)))),
      finish (run_servers w (servers (_config (self s))) (begin s))).
Proof.
  intros Hidle. rewrite (start_idle w s Hidle).
  destruct (fst (for_each (servers (_config (self s))) (start_server w) (begin s)));
    [now split | discriminate].
Qed.

Lemma start_idle_calm (w : World) (s : State) :
  calm_start w ->
  _started (self s) = false ->
  start w s =
  (Returned (_tools (self (run_servers w (servers (_config (self s))) (begin s)))),
   finish (run_servers w (servers (_config (self s))) (begin s))).
Proof.
  intros Hc Hidle. rewrite (start_idle w s Hidle), (loop_returns w _ _ Hc). reflexivity.
Qed.

(** Where no connection and no discovery is interrupted, [start] returns,
    with the adapter list of a manager now started. *)
Lemma start_returns (w : World) (s : State) :
  calm_start w ->
  exists s', start w s = (Returned (_tools (self s')), s') /\ _started (self s') = true.
Proof.
  intros Hc. destruct (_started (self s)) eqn:H.
  - exists s. now rewrite start_started.
  - exists (finish (run_servers w (servers (_config (self s))) (begin s))).
    rewrite (start_idle_calm w s Hc H). split; reflexivity.
Qed.

(** A [start] that returned left the manager started, and returned its
    adapter list. *)
Lemma start_returned (w : World) (s : State) :
  is_raised (fst (start w s)) = false ->
  start w s = (Returned (_tools (self (snd (start w s)))), snd (start w s))
  /\ _started (self (snd (start w s))) = true.
Proof.
  intros Hr. destruct (_started (self s)) eqn:H.
  - rewrite (start_started w s H). now split.
  - destruct (start_idle_returned w s H Hr) as (_ & E). rewrite E. now split.
Qed.

(** *** What an iteration does not depend on, and what it leaves alone *)

Lemma start_server_sim (w : World) (x : string * McpServerConfig) (s1 s2 : State) :
  effects s1 = effects s2 ->
  fst (start_server w x s1) = fst (start_server w x s2)
  /\ effects (snd (start_server w x s1)) = effects (snd (start_server w x s2)).
Proof.
  destruct x as [n c].
  destruct s1 as [[cfg1 cl1 cx1 t1 st1] [io1 lg1]], s2 as [[cfg2 cl2 cx2 t2 st2] [io2 lg2]].
  intros H. unfold effects in H.
  cbn [self rt _clients _contexts _tools _started io] in H.
  injection H as -> -> -> -> ->.
  rewrite !start_server_eq, !connect_server_eq.
  destruct (negb (enabled c)); [now split|].
  destruct (_build_transport n c) as [t|e]; [|destruct (is_exception e); now split].
  cbn [rt self io awaited record_io].
  destruct (w_aenter w io2 (mk_client t)) as [[]|e];
    [|destruct (is_exception e); now split].
  cbn [rt self io awaited record_io].
  destruct (w_list_tools w (io2 ++ [EvEnter (mk_client t)]) (mk_client t)) as [tools|e];
    [|destruct (is_exception e)]; now split.
Qed.

Lemma loop_sim (w : World) (l : dict McpServerConfig) (s1 s2 : State) :
  effects s1 = effects s2 ->
  fst (for_each l (start_server w) s1) = fst (for_each l (start_server w) s2)
  /\ effects (run_servers w l s1) = effects (run_servers w l s2).
Proof.
  unfold run_servers.
  revert s1 s2; induction l as [|x l IH]; intros s1 s2 H; [now split|].
  rewrite !for_each_cons. destruct (start_server_sim w x s1 s2 H) as (Hf & He).
  rewrite Hf. destruct (is_raised (fst (start_server w x s2))).
  - split; [exact Hf | exact He].
  - apply IH, He.
Qed.

(** A server whose iteration returns and leaves the effects alone could as
    well be absent from the configuration. *)
Lemma loop_skip (w : World) (pre post : dict McpServerConfig)
  (x : string * McpServerConfig) (s s' : State) :
  (forall s0, fst (start_server w x s0) = Returned tt
              /\ effects (snd (start_server w x s0)) = effects s0) ->
  effects s = effects s' ->
  fst (for_each (pre ++ x :: post)%list (start_server w) s)
  = fst (for_each (pre ++ post)%list (start_server w) s')
  /\ effects (run_servers w (pre ++ x :: post)%list s)
     = effects (run_servers w (pre ++ post)%list s').
Proof.
  intros Hx H. unfold run_servers. rewrite !for_each_app.
  destruct (loop_sim w pre s s' H) as (Hf & He). unfold run_servers in He.
  destruct (for_each pre (start_server w) s) as [[[]|e] s1],
           (for_each pre (start_server w) s') as [[[]|e'] s1'];
    cbn [fst snd] in Hf, He; try discriminate Hf.
  - rewrite for_each_cons. destruct (Hx s1) as (Hr & Hfx). rewrite Hr. cbn [is_raised].
    apply (loop_sim w post). now rewrite Hfx.
  - split; [exact Hf | exact He].
Qed.

Lemma start_skip (w : World) (pre post : dict McpServerConfig)
  (x : string * McpServerConfig) (s : State) :
  _started (self s) = false ->
  servers (_config (self s)) = (pre ++ x :: post)%list ->
  (forall s0, fst (start_server w x s0) = Returned tt
              /\ effects (snd (start_server w x s0)) = effects s0) ->
  fst (start w s) = fst (start w (with_servers (pre ++ post)%list s))
  /\ effects (snd (start w s)) = effects (snd (start w (with_servers (pre ++ post)%list s))).
Proof.
  intros Hidle Hcfg Hx.
  rewrite (start_idle w s Hidle), (start_idle w (with_servers (pre ++ post)%list s) Hidle).
  rewrite Hcfg. cbn [with_servers self _config servers].
  destruct (loop_skip w pre post x (begin s)
              (begin (with_servers (pre ++ post)%list s)) Hx eq_refl) as (Hf & He).
  rewrite Hf.
  destruct (fst (for_each (pre ++ post)%list (start_server w)
                   (begin (with_servers (pre ++ post)%list s)))) as [[]|e];
    cbn [fst snd]; [|split; [reflexivity | exact He]].
  unfold effects in He. injection He as Hcl Hcx Hts Hst Hio.
  split; [now rewrite Hts|].
  unfold effects, finish; cbn [self rt _clients _contexts _tools _started set_started].
  now rewrite Hcl, Hcx, Hts, Hio.
Qed.

(** *** The adapters, the sessions opened and the log, along the loop *)


(** A session that cannot be opened makes the [try] body raise, with nothing
    registered. *)
Lemma connect_server_unreachable (w : World) (n : string) (c : McpServerConfig)
  (s : State) (t : Transport) (e : exn) :
  _build_transport n c = Returned t ->
  w_aenter w (io (rt s)) (mk_client t) = Raised e ->
  connect_server w n c s = (Raised e, awaited (EvEnter (mk_client t)) s).
Proof.
  intros Ht He. rewrite connect_server_eq, Ht. cbv zeta. now rewrite He.
Qed.

(** A discovery that fails makes the [try] body raise, with the session
    registered and no adapter made. *)
Lemma connect_server_discovery_fails (w : World) (n : string) (c : McpServerConfig)
  (s : State) (t : Transport) (e : exn) :
  _build_transport n c = Returned t ->
  w_aenter w (io (rt s)) (mk_client t) = Returned tt ->
  w_list_tools w (io (rt s) ++ [EvEnter (mk_client t)])%list (mk_client t) = Raised e ->
  connect_server w n c s =
  (Raised e,
   awaited (EvListTools (mk_client t))
     (registered n (mk_client t) (awaited (EvEnter (mk_client t)) s))).
Proof.
  intros Ht Hopen He. rewrite connect_server_eq, Ht. cbv zeta. rewrite Hopen.
  cbn [awaited rt io record_io]. now rewrite He.
Qed.

Lemma start_server_tools (w : World) (n : string) (c : McpServerConfig) (s : State) :
  exists extra,
    _tools (self (snd (start_server w (n, c) s))) = (_tools (self s) ++ extra)%list
    /\ Forall (fun a => _server_name a = n) extra.
Proof.
  rewrite start_server_eq, connect_server_eq.
  destruct (negb (enabled c)).
  { exists []. now rewrite app_nil_r. }
  destruct (_build_transport n c) as [t|e].
  2:{ exists []. destruct (is_exception e); now rewrite app_nil_r. }
  cbv zeta. destruct (w_aenter w (io (rt s)) (mk_client t)) as [[]|e].
  2:{ exists []. destruct (is_exception e); now rewrite app_nil_r. }
  destruct (w_list_tools w _ (mk_client t)) as [tools|e].
  2:{ exists []. destruct (is_exception e); now rewrite app_nil_r. }
  exists (map (adapter_of n (mk_client t)) tools). split; [reflexivity|].
  apply Forall_forall. intros a Ha. apply in_map_iff in Ha.
  destruct Ha as (tool & <- & _). reflexivity.
Qed.

Lemma run_servers_tools (w : World) (l : dict McpServerConfig) (s : State) :
  exists extra,
    _tools (self (run_servers w l s)) = (_tools (self s) ++ extra)%list
    /\ Forall (fun a => In (_server_name a) (map fst l)) extra.
Proof.
  revert s; induction l as [|[n c] l IH]; intros s.
  - exists []. split; [now rewrite app_nil_r | constructor].
  - rewrite run_servers_cons.
    destruct (start_server_tools w n c s) as (e1 & H1 & F1).
    destruct (is_raised (fst (start_server w (n, c) s))).
    + exists e1. split; [exact H1|].
      eapply Forall_impl; [|exact F1]. intros a Ha. now left.
    + destruct (IH (snd (start_server w (n, c) s))) as (e2 & H2 & F2).
      exists (e1 ++ e2)%list. split.
      * now rewrite H2, H1, app_assoc.
      * apply Forall_app. split.
        -- eapply Forall_impl; [|exact F1]. intros a Ha. now left.
        -- eapply Forall_impl; [|exact F2]. intros a Ha. now right.
Qed.

Lemma count_enter_snoc (h : list io_event) (ev : io_event) :
  count_enter (h ++ [ev]) = count_enter h + (if is_enter ev then 1 else 0).
Proof.
  unfold count_enter. rewrite filter_app, length_app. simpl.
  now destruct (is_enter ev).
Qed.

(** An iteration awaits [__aenter__] once when the server is enabled and has
    a valid transport, and not at all otherwise. *)
Lemma start_server_enter_count (w : World) (x : string * McpServerConfig) (s : State) :
  count_enter (io (rt (snd (start_server w x s)))) =
  count_enter (io (rt s)) + (if attempted x then 1 else 0).
Proof.
  destruct x as [n c]. rewrite start_server_eq, connect_server_eq.
  unfold attempted; cbn [fst snd].
  destruct (enabled c); cbn [negb andb]; [|simpl; lia].
  destruct (_build_transport n c) as [t|e]; cbn [is_raised negb];
    [|destruct (is_exception e); simpl; lia].
  cbv zeta. destruct (w_aenter w (io (rt s)) (mk_client t)) as [[]|e].
  2:{ destruct (is_exception e);
        cbn [snd warned logged awaited rt io record_log record_io];
        now rewrite count_enter_snoc. }
  destruct (w_list_tools w _ (mk_client t)) as [tools|e];
    [|destruct (is_exception e)];
    cbn [snd warned logged awaited registered discovered rt io record_log record_io];
    rewrite !count_enter_snoc; simpl; lia.
Qed.

(** In a loop that returned, each server that is enabled and has a valid
    transport was connected to once, whatever became of the others. *)
Lemma run_servers_enter_count (w : World) (l : dict McpServerConfig) (s : State) :
  is_raised (fst (for_each l (start_server w) s)) = false ->
  count_enter (io (rt (run_servers w l s))) =
  count_enter (io (rt s)) + List.length (filter attempted l).
Proof.
  revert s; induction l as [|x l IH]; intros s H.
  - simpl. unfold run_servers; simpl. lia.
  - destruct (loop_returned_cons w x l s H) as (Hx & Hl).
    rewrite run_servers_cons, Hx, (IH _ Hl), start_server_enter_count. simpl.
    destruct (attempted x); simpl; lia.
Qed.

Lemma start_server_log (w : World) (x : string * McpServerConfig) (s : State) :
  exists more, log (rt (snd (start_server w x s))) = (log (rt s) ++ more)%list.
Proof.
  destruct x as [n c]. rewrite start_server_eq, connect_server_eq.
  destruct (negb (enabled c)); [eexists; reflexivity|].
  destruct (_build_transport n c) as [t|e].
  2:{ destruct (is_exception e); [eexists; reflexivity|].
      exists []. now rewrite app_nil_r. }
  cbv zeta. destruct (w_aenter w (io (rt s)) (mk_client t)) as [[]|e].
  2:{ destruct (is_exception e); [eexists; reflexivity|].
      exists []. now rewrite app_nil_r. }
  destruct (w_list_tools w _ (mk_client t)) as [tools|e]; [eexists; reflexivity|].
  destruct (is_exception e); [eexists; reflexivity|].
  exists []. now rewrite app_nil_r.
Qed.

Lemma run_servers_log (w : World) (l : dict McpServerConfig) (s : State) :
  exists more, log (rt (run_servers w l s)) = (log (rt s) ++ more)%list.
Proof.
  revert s; induction l as [|x l IH]; intros s.
  - exists []. unfold run_servers; simpl. now rewrite app_nil_r.
  - rewrite run_servers_cons.
    destruct (start_server_log w x s) as (m1 & H1).
    destruct (is_raised (fst (start_server w x s))); [now exists m1|].
    destruct (IH (snd (start_server w x s))) as (m2 & H2).
    exists (m1 ++ m2)%list. now rewrite H2, H1, app_assoc.
Qed.

(** An iteration changes neither the configuration nor the started flag. *)
Lemma start_server_flags (w : World) (x : string * McpServerConfig) (s : State) :
  _config (self (snd (start_server w x s))) = _config (self s)
  /\ _started (self (snd (start_server w x s))) = _started (self s).
Proof.
  destruct x as [n c]. rewrite start_server_eq, connect_server_eq.
  destruct (negb (enabled c)); [now split|].
  destruct (_build_transport n c) as [t|e]; [|destruct (is_exception e); now split].
  cbv zeta. destruct (w_aenter w (io (rt s)) (mk_client t)) as [[]|e];
    [|destruct (is_exception e); now split].
  destruct (w_list_tools w _ (mk_client t)) as [tools|e];
    [|destruct (is_exception e)]; now split.
Qed.

Lemma run_servers_flags (w : World) (l : dict McpServerConfig) (s : State) :
  _config (self (run_servers w l s)) = _config (self s)
  /\ _started (self (run_servers w l s)) = _started (self s).
Proof.
  revert s; induction l as [|x l IH]; intros s; [now split|].
  rewrite run_servers_cons. destruct (start_server_flags w x s) as (H1 & H2).
  destruct (is_raised (fst (start_server w x s))); [now split|].
  destruct (IH (snd (start_server w x s))) as (H3 & H4).
  split; congruence.
Qed.

Lemma run_servers_config (w : World) (l : dict McpServerConfig) (s : State) :
  _config (self (run_servers w l s)) = _config (self s).
Proof. exact (proj1 (run_servers_flags w l s)). Qed.

(** What the loop raises is what one of its iterations raised. *)
Lemma loop_raises (w : World) (l : dict McpServerConfig) (s : State) (e : exn) :
  fst (for_each l (start_server w) s) = Raised e -> is_exception e = false.
Proof.
  revert s; induction l as [|x l IH]; intros s; [discriminate|].
  rewrite for_each_cons.
  destruct (is_raised (fst (start_server w x s))); [apply start_server_raises | apply IH].
Qed.

(** What [start] raises is not an instance of [Exception], and the manager
    is left not started. *)
Lemma start_raises (w : World) (s : State) (e : exn) :
  fst (start w s) = Raised e ->
  is_exception e = false /\ _started (self (snd (start w s))) = false.
Proof.
  destruct (_started (self s)) eqn:H.
  - rewrite (start_started w s H). discriminate.
  - rewrite (start_idle w s H).
    destruct (fst (for_each (servers (_config (self s))) (start_server w) (begin s)))
      as [[]|e0] eqn:E; [discriminate|].
    intros [= <-]. split; [exact (loop_raises w _ _ _ E)|].
    cbn [snd]. now rewrite (proj2 (run_servers_flags w _ _)).
Qed.

(** *** The loop of [stop] *)

Lemma stop_client_eq (w : World) (n : string) (client : Client) (s : State) :
  stop_client w (n, client) s =
  match w_aexit w (io (rt s)) client with
  | Returned _ => (Returned tt, awaited (EvExit client) s)
  | Raised e =>
      if is_exception e then
        (Returned tt,
         logged DEBUG ("Error closing MCP client '" ++ n ++ "': " ++ exn_msg e)
           (awaited (EvExit client) s))
      else (Raised e, awaited (EvExit client) s)
  end.
Proof.
  unfold stop_client, try_except, zoom, aexit, await.
  destruct (w_aexit w (io (rt s)) client) as [[]|e]; [reflexivity|].
  destruct (is_exception e); reflexivity.
Qed.

(** Where no close is interrupted, the loop of [stop] returns. *)
Lemma close_loop_returns (w : World) (l : dict Client) (s : State) :
  calm_stop w -> fst (for_each l (stop_client w) s) = Returned tt.
Proof.
  intros Hc. apply for_each_returns. clear l s. intros [n client] s.
  rewrite stop_client_eq.
  destruct (w_aexit w (io (rt s)) client) as [[]|e] eqn:E; [reflexivity|].
  now rewrite (Hc _ _ _ E).
Qed.

(** The loop of [stop] leaves the manager as it is. *)
Lemma close_loop_self (w : World) (l : dict Client) (s : State) :
  self (run_closes w l s) = self s.
Proof.
  unfold run_closes.
  revert s; induction l as [|[n client] l IH]; intros s; [reflexivity|].
  rewrite for_each_cons, stop_client_eq.
  destruct (w_aexit w (io (rt s)) client) as [[]|e];
    [|destruct (is_exception e)]; cbn [fst snd is_raised]; try rewrite IH; reflexivity.
Qed.

(** A loop of [stop] that returned awaited one [__aexit__] for each session,
    in order. *)
Lemma close_loop (w : World) (l : dict Client) (s : State) :
  is_raised (fst (for_each l (stop_client w) s)) = false ->
  for_each l (stop_client w) s = (Returned tt, run_closes w l s)
  /\ io (rt (run_closes w l s)) = (io (rt s) ++ map (fun x => EvExit (snd x)) l)%list.
Proof.
  unfold run_closes.
  revert s; induction l as [|[n client] l IH]; intros s.
  - intros _. simpl. now rewrite app_nil_r.
  - rewrite for_each_cons, stop_client_eq.
    destruct (w_aexit w (io (rt s)) client) as [[]|e];
      [|destruct (is_exception e)]; cbn [fst snd is_raised]; intros H;
      try discriminate H;
      destruct (IH _ H) as (E & Hio); rewrite E; cbn [snd]; rewrite Hio;
      cbn [map snd logged awaited self rt io record_io record_log];
      now rewrite <- app_assoc.
Qed.

(** [stop]: an exception that leaves the loop leaves [stop], with nothing
    cleared. *)
Lemma stop_eq (w : World) (s : State) :
  stop w s =
  match fst (for_each (_contexts (self s)) (stop_client w) s) with
  | Returned _ =>
      (Returned tt,
       mk_state (mk_manager (_config (self s)) [] [] [] false)
         (rt (run_closes w (_contexts (self s)) s)))
  | Raised e => (Raised e, run_closes w (_contexts (self s)) s)
  end.
Proof.
  unfold stop, bind at 1, get. unfold bind at 1.
  pose proof (close_loop_self w (_contexts (self s)) s) as Hself.
  unfold run_closes in *.
  destruct (for_each (_contexts (self s)) (stop_client w) s) as [[[]|e] s'];
    cbn [fst snd] in *; [|reflexivity].
  unfold bind, update, modify. cbn [self rt]. rewrite Hself. reflexivity.
Qed.

(** A [stop] that returned: its loop returned. *)
Lemma stop_returned (w : World) (s : State) :
  is_raised (fst (stop w s)) = false ->
  is_raised (fst (for_each (_contexts (self s)) (stop_client w) s)) = false
  /\ stop w s =
     (Returned tt,
      mk_state (mk_manager (_config (self s)) [] [] [] false)
        (rt (run_closes w (_contexts (self s)) s))).
Proof.
  rewrite stop_eq.
  destruct (fst (for_each (_contexts (self s)) (stop_client w) s));
    [now split | discriminate].
Qed.

Lemma stop_calm (w : World) (s : State) :
  calm_stop w ->
  stop w s =
  (Returned tt,
   mk_state (mk_manager (_config (self s)) [] [] [] false)
     (rt (run_closes w (_contexts (self s)) s))).
Proof.
  intros Hc. now rewrite stop_eq, (close_loop_returns w _ s Hc).
Qed.

(** *** The sessions of the map are the sessions that are open *)

Lemma open_sessions_snoc (w : World) (h : list io_event) (ev : io_event) :
  open_sessions w (h ++ [ev])%list = session_step w h ev (open_sessions w h).
Proof.
  unfold open_sessions. rewrite rev_app_distr. cbn [rev app sessions_rev].
  now rewrite rev_involutive.
Qed.

Lemma dict_set_fresh {V : Type} (d : dict V) (k : string) (v : V) :
  ~ In k (map fst d) -> dict_set d k v = (d ++ [(k, v)])%list.
Proof.
  induction d as [|[k' v'] d IH]; intros Hk; [reflexivity|].
  cbn [dict_set app]. destruct (String.eqb_spec k' k) as [E|N].
  - elim Hk. now left.
  - rewrite IH; [reflexivity|]. intros H. apply Hk. now right.
Qed.

Lemma remove_first_head (c : Client) (l : list Client) : remove_first c (c :: l) = l.
Proof.
  cbn [remove_first]. destruct (Client_eq_dec c c) as [_|N]; [reflexivity | now elim N].
Qed.

(** An iteration of [start] for a server that has no session yet keeps the
    map in step with the open sessions, and adds no key but its own. *)
Lemma start_server_sessions (w : World) (n : string) (c : McpServerConfig) (s : State) :
  ~ In n (map fst (_contexts (self s))) ->
  open_sessions w (io (rt s)) = held s ->
  open_sessions w (io (rt (snd (start_server w (n, c) s))))
  = held (snd (start_server w (n, c) s))
  /\ (forall k, In k (map fst (_contexts (self (snd (start_server w (n, c) s))))) ->
                k = n \/ In k (map fst (_contexts (self s)))).
Proof.
  intros Hn Hinv. rewrite start_server_eq, connect_server_eq.
  destruct (negb (enabled c)); [split; [exact Hinv | now right]|].
  destruct (_build_transport n c) as [t|e];
    [|destruct (is_exception e); (split; [exact Hinv | now right])].
  cbv zeta. destruct (w_aenter w (io (rt s)) (mk_client t)) as [[]|e] eqn:Hopen.
  2:{ destruct (is_exception e);
        cbn [snd warned logged awaited self rt io record_io record_log];
        rewrite open_sessions_snoc; cbn [session_step]; rewrite Hopen;
        (split; [exact Hinv | now right]). }
  assert (Hheld : forall s', _contexts (self s') = dict_set (_contexts (self s)) n (mk_client t) ->
                  held s' = (held s ++ [mk_client t])%list).
  { intros s' E. unfold held. rewrite E, dict_set_fresh by exact Hn.
    now rewrite map_app. }
  assert (Hkeys : forall k,
             In k (map fst (dict_set (_contexts (self s)) n (mk_client t))) ->
             k = n \/ In k (map fst (_contexts (self s)))).
  { intros k. rewrite dict_set_fresh by exact Hn. rewrite map_app.
    intros H. apply in_app_or in H. destruct H as [H|[H|[]]]; [now right | now left]. }
  destruct (w_list_tools w _ (mk_client t)) as [tools|e];
    [|destruct (is_exception e)];
    cbn [snd warned logged awaited registered discovered self rt io record_io record_log
           _contexts set_contexts set_clients set_tools];
    rewrite !open_sessions_snoc; cbn [session_step]; rewrite Hopen; cbn [is_raised];
    (split; [rewrite Hinv; symmetry; now apply Hheld | exact Hkeys]).
Qed.

Lemma run_servers_sessions (w : World) (l : dict McpServerConfig) (s : State) :
  NoDup (map fst l) ->
  (forall k, In k (map fst (_contexts (self s))) -> ~ In k (map fst l)) ->
  open_sessions w (io (rt s)) = held s ->
  open_sessions w (io (rt (run_servers w l s))) = held (run_servers w l s).
Proof.
  revert s; induction l as [|[n c] l IH]; intros s Hnd Hkeys Hinv; [exact Hinv|].
  rewrite run_servers_cons. cbn [map fst] in Hnd, Hkeys.
  apply NoDup_cons_iff in Hnd. destruct Hnd as [Hn Hnd].
  destruct (start_server_sessions w n c s) as (Hinv' & Hkeys').
  - intros H. apply (Hkeys n H). now left.
  - exact Hinv.
  - destruct (is_raised (fst (start_server w (n, c) s))); [exact Hinv'|].
    apply IH; [exact Hnd | | exact Hinv'].
    intros k Hk Hl. destruct (Hkeys' k Hk) as [->|Hold]; [now apply Hn|].
    apply (Hkeys k Hold). now right.
Qed.

Lemma run_closes_sessions (w : World) (l : dict Client) (s : State) (rest : list Client) :
  is_raised (fst (for_each l (stop_client w) s)) = false ->
  open_sessions w (io (rt s)) = (map snd l ++ rest)%list ->
  open_sessions w (io (rt (run_closes w l s))) = rest.
Proof.
  unfold run_closes.
  revert s; induction l as [|[n client] l IH]; intros s; [intros _ Hinv; exact Hinv|].
  rewrite for_each_cons, stop_client_eq.
  destruct (w_aexit w (io (rt s)) client) as [[]|e];
    [|destruct (is_exception e)]; cbn [fst snd is_raised]; intros H Hinv;
    try discriminate H;
    apply (IH _ H);
    cbn [logged awaited self rt io record_io record_log];
    rewrite open_sessions_snoc; cbn [session_step]; rewrite Hinv;
    cbn [map snd app]; apply remove_first_head.
Qed.

(** In every state the manager goes through, the session map holds exactly
    the sessions that are open, and a manager that is not started holds
    none. *)
Lemma reachable_sessions (w : World) (config : McpConfig) (s : State) :
  NoDup (map fst (servers config)) ->
  reachable w config s ->
  _config (self s) = config
  /\ open_sessions w (io (rt s)) = held s
  /\ (_started (self s) = false -> _contexts (self s) = []).
Proof.
  intros Hnd Hr. induction Hr as [|s Hr (Hcfg & Hinv & Hidle) Hret
                                  |s Hr (Hcfg & Hinv & Hidle) Hret
                                  |s a kwargs Hr (Hcfg & Hinv & Hidle) Ha].
  - repeat split.
  - destruct (_started (self s)) eqn:Hst.
    + rewrite (start_started w s Hst). cbn [snd].
      split; [exact Hcfg|]. split; [exact Hinv | congruence].
    + destruct (start_idle_returned w s Hst Hret) as (_ & E). rewrite E. cbn [snd].
      specialize (Hidle eq_refl).
      split; [|split; [|discriminate]].
      * cbn [finish self set_started _config]. now rewrite run_servers_config.
      * apply run_servers_sessions.
        -- now rewrite Hcfg.
        -- cbn [begin self set_tools _contexts]. rewrite Hidle. intros k [].
        -- exact Hinv.
  - destruct (stop_returned w s Hret) as (Hloop & E). rewrite E.
    cbn [snd self rt _config _contexts _started]. split; [exact Hcfg|].
    split; [|reflexivity].
    apply (run_closes_sessions w _ s [] Hloop). fold (held s). now rewrite app_nil_r.
  - cbn [self rt]. split; [exact Hcfg|]. split; [|exact Hidle].
    rewrite ToolsProps.execute_unfold.
    destruct (w_call_tool w (io (rt s)) (_client a) (_tool_name a) kwargs) as [r|e];
      [|destruct (is_exception e)];
      cbn [snd io record_io record_log]; rewrite open_sessions_snoc; exact Hinv.
Qed.


(** *** The claims about [start] *)

(** C4. [start] on a started manager returns the cached adapter list and
    changes nothing: no call is made on any client, nothing is logged, the
    manager stays started.  Whatever list a first [start] returned, a second
    one returns the same list and leaves the state of the first.  Over the two
    calls [__aenter__] is awaited once for each server that is enabled and has
    a valid transport, so once when there is one such server. *)
Theorem start_is_idempotent (w : World) (s : State) :
  (_started (self s) = true -> start w s = (Returned (_tools (self s)), s))
  /\ (forall r1 s1, start w s = (r1, s1) ->
        is_raised r1 = false ->
        _started (self s1) = true
        /\ r1 = Returned (_tools (self s1))
        /\ start w s1 = (r1, s1))
  /\ (_started (self s) = false ->
        is_raised (fst (start w s)) = false ->
        count_enter (io (rt (snd (start w (snd (start w s)))))) =
        count_enter (io (rt s))
        + List.length (filter attempted (servers (_config (self s))))).
Proof.
  split; [apply start_started|]. split.
  - intros r1 s1 E Hr.
    assert (Hret : is_raised (fst (start w s)) = false) by now rewrite E.
    destruct (start_returned w s Hret) as (E' & Hst).
    rewrite E in E', Hst. cbn [snd] in E', Hst. injection E' as ->.
    split; [exact Hst|]. split; [reflexivity|]. now apply start_started.
  - intros Hidle Hret. destruct (start_idle_returned w s Hidle Hret) as (Hloop & E).
    rewrite E. cbn [snd].
    rewrite start_started by reflexivity. cbn [snd finish rt].
    now rewrite (run_servers_enter_count w _ _ Hloop).
Qed.

(** [test_manager_start_idempotent]: two calls, the same result, one session
    opened. *)
Lemma start_is_idempotent_witness :
  start (w_serving [a_tool] []) (snd (start (w_serving [a_tool] []) (fresh one_server_cfg)))
  = start (w_serving [a_tool] []) (fresh one_server_cfg)
  /\ count_enter
       (io (rt (snd (start (w_serving [a_tool] [])
                      (snd (start (w_serving [a_tool] []) (fresh one_server_cfg)))))))
     = 1.
Proof.
  destruct (start_is_idempotent (w_serving [a_tool] []) (fresh one_server_cfg))
    as (_ & H2 & H3).
  split.
  - exact (proj2 (proj2 (H2 _ _ eq_refl eq_refl))).
  - exact (H3 eq_refl eq_refl).
Defined.




(** C6 (as the code has it). A world in which no connection and no discovery
    is interrupted, a manager that is not started, and an enabled server [n]
    whose transport configuration is invalid.  [start] does not raise: the
    iteration for [n] catches the [ValueError], logs the warning and does
    nothing else.  [start] returns the list, opens the sessions and makes the
    calls it would with [n] absent from the configuration, the manager is
    started, and the log holds the warning for [n]. *)
Theorem start_catches_configuration_errors (w : World) (s : State)
  (pre post : dict McpServerConfig) (n : string) (c : McpServerConfig) (e : exn) :
  calm_start w ->
  _started (self s) = false ->
  servers (_config (self s)) = (pre ++ (n, c) :: post)%list ->
  enabled c = true ->
  _build_transport n c = Raised e ->
  (forall s0, start_server w (n, c) s0 = (Returned tt, warned n e s0))
  /\ (exists tools,
        fst (start w s) = Returned tools
        /\ fst (start w (with_servers (pre ++ post)%list s)) = Returned tools)
  /\ effects (snd (start w s)) = effects (snd (start w (with_servers (pre ++ post)%list s)))
  /\ _started (self (snd (start w s))) = true
  /\ In (mk_log WARNING ("MCP server '" ++ n ++ "' failed to connect: " ++ exn_msg e))
        (log (rt (snd (start w s)))).
Proof.
  intros Hcalm Hidle Hcfg Hen Hbt.
  assert (Hstep : forall s0, start_server w (n, c) s0 = (Returned tt, warned n e s0)).
  { intros s0.
    now rewrite start_server_eq, connect_server_eq, Hen, Hbt,
      (build_transport_exception n c e Hbt). }
  assert (Hfx : forall s0, fst (start_server w (n, c) s0) = Returned tt
                           /\ effects (snd (start_server w (n, c) s0)) = effects s0).
  { intros s0. now rewrite Hstep. }
  destruct (start_skip w pre post (n, c) s Hidle Hcfg Hfx) as (Hfst & Heff).
  split; [exact Hstep|]. split; [|split; [exact Heff|]].
  - destruct (start_returns w s Hcalm) as (s' & E & _). exists (_tools (self s')).
    rewrite <- Hfst, E. split; reflexivity.
  - rewrite (start_idle_calm w s Hcalm Hidle), Hcfg. cbn [snd]. split; [reflexivity|].
    cbn [finish rt]. rewrite (run_servers_app w _ _ _ Hcalm), run_servers_cons, Hstep.
    cbn [fst snd is_raised].
    destruct (run_servers_log w post (warned n e (run_servers w pre (begin s))))
      as (more & ->).
    apply in_or_app. left. cbn [warned logged rt record_log log].
    apply in_or_app. right. now left.
Qed.

(** A server of type "websocket" before one that can be reached: [start]
    returns what it returns for the second server alone, and opens one
    session. *)
Lemma start_catches_configuration_errors_witness :
  fst (start (w_serving [a_tool] []) (fresh mixed_cfg))
  = fst (start (w_serving [a_tool] []) (fresh one_server_cfg))
  /\ count_enter (io (rt (snd (start (w_serving [a_tool] []) (fresh mixed_cfg))))) = 1.
Proof.
  destruct (start_catches_configuration_errors (w_serving [a_tool] [])
              (fresh mixed_cfg) [] [("s", http_server "http://x/mcp")]
              "ws" websocket_server
              (ValueError ("MCP server 'ws': unsupported transport type 'websocket' "
                             ++ "(expected 'http' or 'stdio')")))
    as (_ & (tools & E1 & E2) & Heff & _ & _).
  - split; intros h c e H; discriminate H.
  - reflexivity.
  - reflexivity.
  - reflexivity.
  - reflexivity.
  - split.
    + rewrite E1. exact (eq_sym E2).
    + exact (f_equal (fun x => count_enter (snd x)) Heff).
Defined.

(** C6, the claim as stated fails: the transport of the only server cannot
    be built, and [start] returns the empty list instead of raising the
    [ValueError] of [_build_transport]. *)
Lemma start_does_not_raise_configuration_errors :
  _build_transport "ws" websocket_server
    = Raised (ValueError ("MCP server 'ws': unsupported transport type 'websocket' "
                            ++ "(expected 'http' or 'stdio')"))
  /\ fst (start (w_serving [a_tool] []) (fresh websocket_cfg)) = Returned []
  /\ forall e, fst (start (w_serving [a_tool] []) (fresh websocket_cfg)) <> Raised e.
Proof.
  split; [reflexivity|]. split; [reflexivity|]. intros e H. discriminate H.
Qed.

(** C8. A manager that is not started, and a server [n] of its configuration
    whose [enabled] flag is false.  The iteration for [n] logs one INFO line
    and does nothing else: the manager is untouched and no call is made on
    any client.  [start] returns the list, opens the sessions and makes the
    calls it would with [n] absent from the configuration.  If [n] is the only
    server, [start] returns the empty list, makes no call, and the manager is
    started. *)
Theorem start_skips_disabled_servers (w : World) (s : State)
  (pre post : dict McpServerConfig) (n : string) (c : McpServerConfig) :
  _started (self s) = false ->
  servers (_config (self s)) = (pre ++ (n, c) :: post)%list ->
  enabled c = false ->
  (forall s0,
      start_server w (n, c) s0 =
      (Returned tt, logged INFO ("MCP server '" ++ n ++ "' is disabled, skipping") s0))
  /\ fst (start w s) = fst (start w (with_servers (pre ++ post)%list s))
  /\ effects (snd (start w s)) = effects (snd (start w (with_servers (pre ++ post)%list s)))
  /\ (pre = [] -> post = [] ->
      fst (start w s) = Returned []
      /\ _started (self (snd (start w s))) = true
      /\ io (rt (snd (start w s))) = io (rt s)).
Proof.
  intros Hidle Hcfg Hen.
  assert (Hstep : forall s0,
             start_server w (n, c) s0 =
             (Returned tt, logged INFO ("MCP server '" ++ n ++ "' is disabled, skipping") s0)).
  { intros s0. now rewrite start_server_eq, Hen. }
  assert (Hfx : forall s0, fst (start_server w (n, c) s0) = Returned tt
                           /\ effects (snd (start_server w (n, c) s0)) = effects s0).
  { intros s0. now rewrite Hstep. }
  destruct (start_skip w pre post (n, c) s Hidle Hcfg Hfx) as (Hfst & Heff).
  split; [exact Hstep|]. split; [exact Hfst|]. split; [exact Heff|].
  intros -> ->. rewrite (start_idle w s Hidle), Hcfg.
  unfold run_servers. cbn [app for_each]. unfold bind. rewrite Hstep.
  repeat split.
Qed.

(** [test_manager_start_skips_disabled_server]. *)
Lemma start_skips_disabled_servers_witness :
  fst (start (w_down "unused") (fresh disabled_cfg)) = Returned []
  /\ _started (self (snd (start (w_down "unused") (fresh disabled_cfg)))) = true
  /\ io (rt (snd (start (w_down "unused") (fresh disabled_cfg)))) = [].
Proof.
  exact (proj2 (proj2 (proj2
           (start_skips_disabled_servers (w_down "unused") (fresh disabled_cfg)
              [] [] "off" (disabled_server "http://localhost/mcp")
              eq_refl eq_refl eq_refl))) eq_refl eq_refl).
Defined.

(** *** The claim about [stop] *)




(** Two open sessions whose [__aexit__] both raise: both are awaited, and the
    manager is reset. *)
Example stop_after_failing_closes :
  map (fun x => fst x) (_contexts (self two_sessions)) = ["s1"; "s2"]
  /\ count_enter (io (rt two_sessions)) = 2
  /\ List.length
       (filter (fun ev => match ev with EvExit _ => true | _ => false end)
          (io (rt (snd (stop (w_bad_close []) two_sessions))))) = 2
  /\ get_tools (self (snd (stop (w_bad_close []) two_sessions))) = []
  /\ is_started (self (snd (stop (w_bad_close []) two_sessions))) = false.
Proof. repeat split. Qed.

(** *** The claim about [_build_transport] *)

Lemma str_in_after_name (pre name mid sub post : string) :
  str_in sub (pre ++ name ++ mid ++ sub ++ post) = true.
Proof.
  rewrite <- (append_assoc name mid), <- (append_assoc pre (name ++ mid)).
  apply str_in_intro.
Qed.

(** C10. [_build_transport] raises a [ValueError] whose message contains
    "url" for type "http" with an empty url, "command" for type "stdio" with
    an empty command, and "unsupported" for any other type.  In the other
    cases it returns the transport of the type, built from the url and the
    headers, or from the command, the arguments and the environment, where a
    missing container is the empty one and never [None]. *)
Theorem build_transport_validates (name : string) (cfg : McpServerConfig) :
  (type cfg = "http" -> url cfg = "" ->
   exists e, _build_transport name cfg = Raised e
             /\ exn_class e = "ValueError" /\ str_in "url" (exn_msg e) = true)
  /\ (type cfg = "stdio" -> command cfg = "" ->
      exists e, _build_transport name cfg = Raised e
                /\ exn_class e = "ValueError" /\ str_in "command" (exn_msg e) = true)
  /\ (type cfg <> "http" -> type cfg <> "stdio" ->
      exists e, _build_transport name cfg = Raised e
                /\ exn_class e = "ValueError" /\ str_in "unsupported" (exn_msg e) = true)
  /\ (type cfg = "http" -> url cfg <> "" ->
      _build_transport name cfg =
      Returned (StreamableHttpTransport (url cfg)
                  (Some (match headers cfg with Some h => h | None => [] end))))
  /\ (type cfg = "stdio" -> command cfg <> "" ->
      _build_transport name cfg =
      Returned (StdioTransport (command cfg)
                  (Some (match args cfg with Some a => a | None => [] end))
                  (Some (match env cfg with Some v => v | None => [] end)))).
Proof.
  unfold _build_transport. repeat split.
  - intros Ht Hu. rewrite Ht, Hu. cbn. eexists. split; [reflexivity|].
    split; [reflexivity|].
    exact (str_in_after_name "MCP server '" name "': HTTP transport requires a '"
             "url" "'").
  - intros Ht Hc. rewrite Ht, Hc. cbn. eexists. split; [reflexivity|].
    split; [reflexivity|].
    exact (str_in_after_name "MCP server '" name "': stdio transport requires a '"
             "command" "'").
  - intros H1 H2. apply String.eqb_neq in H1, H2. rewrite H1, H2.
    eexists. split; [reflexivity|]. split; [reflexivity|].
    exact (str_in_after_name "MCP server '" name "': " "unsupported"
             (" transport type '" ++ type cfg ++ "' (expected 'http' or 'stdio')")).
  - intros Ht Hu. rewrite Ht. cbn [String.eqb Ascii.eqb Bool.eqb].
    destruct (url cfg) as [|a u]; [now elim Hu|]. cbn [truthy_str negb].
    now rewrite or_list_nil.
  - intros Ht Hc. rewrite Ht. cbn [String.eqb Ascii.eqb Bool.eqb].
    destruct (command cfg) as [|a u]; [now elim Hc|]. cbn [truthy_str negb].
    now rewrite !or_list_nil.
Qed.

(** The five cases, on the configurations of the tests. *)
Lemma build_transport_validates_witness :
  (exists e, _build_transport "test" (http_server "") = Raised e
             /\ exn_class e = "ValueError" /\ str_in "url" (exn_msg e) = true)
  /\ (exists e, _build_transport "test" (stdio_server "" []) = Raised e
                /\ exn_class e = "ValueError" /\ str_in "command" (exn_msg e) = true)
  /\ (exists e, _build_transport "test" websocket_server = Raised e
                /\ exn_class e = "ValueError" /\ str_in "unsupported" (exn_msg e) = true)
  /\ _build_transport "test" (http_server "http://localhost:8000/mcp")
     = Returned (StreamableHttpTransport "http://localhost:8000/mcp" (Some []))
  /\ _build_transport "test" (stdio_server "python" ["s.py"])
     = Returned (StdioTransport "python" (Some ["s.py"]) (Some [])).
Proof.
  split; [|split; [|split; [|split]]].
  - exact (proj1 (build_transport_validates "test" (http_server "")) eq_refl eq_refl).
  - exact (proj1 (proj2 (build_transport_validates "test" (stdio_server "" [])))
             eq_refl eq_refl).
  - apply (proj1 (proj2 (proj2 (build_transport_validates "test" websocket_server))));
      intros H; discriminate H.
  - apply (proj1 (proj2 (proj2 (proj2
             (build_transport_validates "test" (http_server "http://localhost:8000/mcp"))))));
      [reflexivity | intros H; discriminate H].
  - apply (proj2 (proj2 (proj2 (proj2
             (build_transport_validates "test" (stdio_server "python" ["s.py"]))))));
      [reflexivity | intros H; discriminate H].
Defined.

End ClientProps.

(** ** The checks of tests/test_mcp.py, run on the model *)

Module Tests.

Import Tools Client Obs Scenarios.

Example test_adapter_name_format :
  name (McpToolAdapter_init "google_workspace" "list_emails" "Say hello" [] a_client)
  = "mcp__google_workspace__list_emails".
Proof. reflexivity. Qed.

Example test_adapter_description :
  description (McpToolAdapter_init "test_srv" "greet" "Fetch calendar events" [] a_client)
  = "Fetch calendar events".
Proof. reflexivity. Qed.

Example test_adapter_default_description :
  str_in "MCP tool t from s"
    (description (McpToolAdapter_init "s" "t" "" [] a_client)) = true.
Proof. reflexivity. Qed.

Example test_adapter_parameters :
  parameters an_adapter =
  [("type", JStr "object");
   ("properties", JDict [("name", JDict [("type", JStr "string")])]);
   ("required", JList [JStr "name"])]
  /\ parameters (McpToolAdapter_init "s" "t" "" [] a_client)
     = [("type", JStr "object"); ("properties", JDict [])].
Proof. split; reflexivity. Qed.

Example test_adapter_execute_success :
  execute (w_serving [] [TextBlock "Hello, Alice!"]) an_adapter
    [("name", JStr "Alice")] runtime0
  = (Returned "Hello, Alice!",
     mk_runtime [EvCallTool a_client "t" [("name", JStr "Alice")]] []).
Proof. reflexivity. Qed.

Example test_adapter_execute_empty_result :
  fst (execute (w_serving [] []) an_adapter [("name", JStr "X")] runtime0)
  = Returned "(empty result)".
Proof. reflexivity. Qed.

Example test_adapter_execute_error_handling :
  match fst (execute (w_down "server down") an_adapter [("name", JStr "X")] runtime0) with
  | Returned result =>
      str_in "Error calling MCP tool" result = true
      /\ str_in "server down" result = true
  | Raised _ => False
  end.
Proof. split; reflexivity. Qed.

Example test_manager_not_started_initially :
  is_started (self (fresh one_server_cfg)) = false
  /\ get_tools (self (fresh one_server_cfg)) = [].
Proof. split; reflexivity. Qed.

Example test_manager_start_discovers_tools :
  match start (w_serving [mk_remote_tool "do_thing" (Some "Does the thing")
                            (Some [("type", JStr "object")])] [])
          (fresh (mk_config [("my_srv", http_server "http://localhost:9999/mcp")])) with
  | (Returned [tool], s) =>
      is_started (self s) = true
      /\ name tool = "mcp__my_srv__do_thing"
      /\ description tool = "Does the thing"
  | _ => False
  end.
Proof. repeat split. Qed.

Example test_manager_stop_cleans_up :
  is_started (self (snd (start (w_serving [] []) (fresh one_server_cfg)))) = true
  /\ stop (w_serving [] []) (snd (start (w_serving [] []) (fresh one_server_cfg)))
     = (Returned tt,
        mk_state (McpClientManager_init one_server_cfg)
          (mk_runtime
             [EvEnter a_client; EvListTools a_client; EvExit a_client]
             [mk_log INFO "MCP server 's': connected, 0 tool(s) found"])).
Proof. split; reflexivity. Qed.

End Tests.

(** ** Further properties of the adapter and of the manager *)

Module MoreProps.

Import Tools Client Obs Scenarios PyFacts ToolsProps ClientProps.

(** *** Entries of a [dict] under assignment *)

Lemma dict_set_in {V : Type} (d : dict V) (k : string) (v : V) :
  In (k, v) (dict_set d k v).
Proof.
  induction d as [|[k' v'] d IH]; cbn [dict_set]; [now left|].
  destruct (String.eqb k' k); [now left | right; exact IH].
Qed.

Lemma dict_set_other {V : Type} (d : dict V) (k k' : string) (v v' : V) :
  k <> k' -> In (k, v) d -> In (k, v) (dict_set d k' v').
Proof.
  intros Hne. induction d as [|[k0 v0] d IH]; cbn [dict_set]; [intros []|].
  intros [E|H].
  - injection E as -> ->. destruct (String.eqb_spec k k'); [contradiction | now left].
  - destruct (String.eqb k0 k'); right; [exact H | apply IH, H].
Qed.

(** The same tool of the same server, described twice. *)
Lemma name_inj_plain_servers_witness :
  name (McpToolAdapter_init "github" "search" "" [] a_client)
  = name (McpToolAdapter_init "github" "search" "Search" [] a_client)
  /\ "github" = "github" /\ "search" = "search".
Proof.
  split; [reflexivity|].
  exact (name_inj_plain_servers "github" "github" "search" "search" "" "Search" [] []
           a_client a_client eq_refl eq_refl eq_refl).
Defined.

(** *** What [execute] does to the outside *)

(** X1. [execute] awaits [call_tool] once, on the adapter's client, under the
    tool's own name and with the arguments it was given, and awaits nothing
    else; it logs one warning when that call raises an instance of
    [Exception], and nothing when it returns or raises anything else. *)
Theorem execute_forwards_one_call (w : World) (self : McpToolAdapter)
  (kwargs : dict json) (rt : Runtime) :
  io (snd (execute w self kwargs rt))
  = (io rt ++ [EvCallTool (_client self) (_tool_name self) kwargs])%list
  /\ log (snd (execute w self kwargs rt))
     = match w_call_tool w (io rt) (_client self) (_tool_name self) kwargs with
       | Returned _ => log rt
       | Raised e =>
           if is_exception e then
             (log rt ++ [mk_log WARNING
                           ("MCP tool " ++ name self ++ " execution failed: "
                              ++ exn_msg e)])%list
           else log rt
       end.
Proof.
  rewrite execute_unfold.
  destruct (w_call_tool w (io rt) (_client self) (_tool_name self) kwargs) as [r|e];
    [|destruct (is_exception e)]; split; reflexivity.
Qed.

(** *** The adapter made for a discovered tool *)

(** X2. The adapter made for a tool that a server reports: its name is built
    from the server's name and the tool's; a description that is [None] or
    empty is replaced by the generated one, any other is kept; a schema that
    is missing or empty is replaced by the empty object schema, any other is
    kept.  So neither the description nor the schema of an adapter is
    empty. *)
Theorem discovered_adapter_fields (n : string) (client : Client) (tool : RemoteTool) :
  name (adapter_of n client tool) = "mcp__" ++ n ++ "__" ++ tool_name tool
  /\ description (adapter_of n client tool)
     = match tool_description tool with
       | Some (String a d) => String a d
       | Some "" | None => "MCP tool " ++ tool_name tool ++ " from " ++ n
       end
  /\ parameters (adapter_of n client tool)
     = match tool_inputSchema tool with
       | Some (kv :: sch) => kv :: sch
       | Some [] | None => [("type", JStr "object"); ("properties", JDict [])]
       end
  /\ description (adapter_of n client tool) <> ""
  /\ parameters (adapter_of n client tool) <> []
  /\ _client (adapter_of n client tool) = client.
Proof.
  destruct tool as [tn [[|a d]|] [[|kv sch]|]]; repeat split; discriminate.
Qed.

(** *** The adapters [start] returns *)

Lemma start_server_keeps_entry (w : World) (n : string) (c : McpServerConfig)
  (s : State) (k : string) (cl : Client) :
  k <> n ->
  (In (k, cl) (_contexts (self s)) ->
   In (k, cl) (_contexts (self (snd (start_server w (n, c) s)))))
  /\ (In (k, cl) (_clients (self s)) ->
      In (k, cl) (_clients (self (snd (start_server w (n, c) s))))).
Proof.
  intros Hk. rewrite start_server_eq, connect_server_eq.
  destruct (negb (enabled c)); [now split|].
  destruct (_build_transport n c) as [t|e]; [|destruct (is_exception e); now split].
  cbv zeta. destruct (w_aenter w (io (rt s)) (mk_client t)) as [[]|e];
    [|destruct (is_exception e); now split].
  destruct (w_list_tools w _ (mk_client t)) as [tools|e];
    [|destruct (is_exception e)];
    cbn [snd warned logged awaited registered discovered self rt
           _contexts _clients set_contexts set_clients set_tools];
    split; intros H; now apply dict_set_other.
Qed.

Lemma run_servers_keeps_entry (w : World) (l : dict McpServerConfig) (s : State)
  (k : string) (cl : Client) :
  ~ In k (map fst l) ->
  (In (k, cl) (_contexts (self s)) ->
   In (k, cl) (_contexts (self (run_servers w l s))))
  /\ (In (k, cl) (_clients (self s)) ->
      In (k, cl) (_clients (self (run_servers w l s)))).
Proof.
  revert s; induction l as [|[n c] l IH]; intros s Hk; [now split|].
  rewrite run_servers_cons. cbn [map fst] in Hk.
  assert (Hn : k <> n) by (intros ->; apply Hk; now left).
  assert (Hl : ~ In k (map fst l)) by (intros H; apply Hk; now right).
  destruct (start_server_keeps_entry w n c s k cl Hn) as [H1 H2].
  destruct (is_raised (fst (start_server w (n, c) s))); [now split|].
  destruct (IH (snd (start_server w (n, c) s)) Hl) as [H3 H4].
  split; intros H; [apply H3, H1, H | apply H4, H2, H].
Qed.

Lemma start_server_adapters (w : World) (n : string) (c : McpServerConfig) (s : State) :
  exists extra,
    _tools (self (snd (start_server w (n, c) s))) = (_tools (self s) ++ extra)%list
    /\ Forall (bound_to n c (snd (start_server w (n, c) s))) extra.
Proof.
  rewrite start_server_eq, connect_server_eq.
  destruct (enabled c) eqn:Hen; cbn [negb].
  2:{ exists []. split; [now rewrite app_nil_r | constructor]. }
  destruct (_build_transport n c) as [t|e] eqn:Hbt.
  2:{ exists []. destruct (is_exception e); (split; [now rewrite app_nil_r | constructor]). }
  cbv zeta. destruct (w_aenter w (io (rt s)) (mk_client t)) as [[]|e].
  2:{ exists []. destruct (is_exception e); (split; [now rewrite app_nil_r | constructor]). }
  destruct (w_list_tools w _ (mk_client t)) as [tools|e].
  2:{ exists []. destruct (is_exception e); (split; [now rewrite app_nil_r | constructor]). }
  exists (map (adapter_of n (mk_client t)) tools). split; [reflexivity|].
  apply Forall_forall. intros a Ha. apply in_map_iff in Ha.
  destruct Ha as (tool & <- & _).
  unfold bound_to.
  cbn [snd discovered logged awaited registered self rt _contexts _clients
         set_contexts set_clients set_tools].
  repeat split; try assumption; try apply dict_set_in;
    destruct tool as [tn [[|a0 d]|] [[|kv sch]|]]; discriminate.
Qed.

Lemma run_servers_adapters (w : World) (l : dict McpServerConfig) (s : State) :
  NoDup (map fst l) ->
  exists extra,
    _tools (self (run_servers w l s)) = (_tools (self s) ++ extra)%list
    /\ Forall (fun a => exists c, In (_server_name a, c) l
                                  /\ bound_to (_server_name a) c (run_servers w l s) a)
         extra.
Proof.
  revert s; induction l as [|[n c] l IH]; intros s Hnd.
  - exists []. split; [now rewrite app_nil_r | constructor].
  - rewrite run_servers_cons. cbn [map fst] in Hnd.
    apply NoDup_cons_iff in Hnd. destruct Hnd as [Hn Hnd].
    destruct (start_server_adapters w n c s) as (e1 & H1 & F1).
    destruct (is_raised (fst (start_server w (n, c) s))).
    { exists e1. split; [exact H1|].
      eapply Forall_impl; [|exact F1]. intros a Hb. exists c.
      pose proof (proj1 Hb) as Hs. rewrite Hs. split; [now left | exact Hb]. }
    destruct (IH (snd (start_server w (n, c) s)) Hnd) as (e2 & H2 & F2).
    exists (e1 ++ e2)%list. split; [now rewrite H2, H1, app_assoc|].
    apply Forall_app. split.
    + eapply Forall_impl; [|exact F1]. intros a (Hs & He & Hb & Hd & Hp & Hx & Hc).
      exists c. rewrite Hs. split; [now left|].
      destruct (run_servers_keeps_entry w l (snd (start_server w (n, c) s)) n (_client a) Hn)
        as [K1 K2].
      unfold bound_to. repeat split; auto.
    + eapply Forall_impl; [|exact F2]. intros a (c' & Hin & Hb).
      exists c'. split; [now right | exact Hb].
Qed.

(** X3. Every adapter that [start] returns on a manager that was not started
    belongs to a server of the configuration that is enabled; its client was
    made from the transport that [_build_transport] gives for that server;
    it is registered under the server's name in both maps of the manager, so
    [stop] will close it; and its description and schema are not empty.
    (The keys of a [dict] are distinct.) *)
Theorem start_adapters_are_bound (w : World) (s : State) (a : McpToolAdapter) :
  _started (self s) = false ->
  NoDup (map fst (servers (_config (self s)))) ->
  In a (get_tools (self (snd (start w s)))) ->
  exists c,
    In (_server_name a, c) (servers (_config (self s)))
    /\ enabled c = true
    /\ _build_transport (_server_name a) c = Returned (client_transport (_client a))
    /\ In (_server_name a, _client a) (_contexts (self (snd (start w s))))
    /\ In (_server_name a, _client a) (_clients (self (snd (start w s))))
    /\ description a <> ""
    /\ parameters a <> [].
Proof.
  intros Hidle Hnd.
  destruct (run_servers_adapters w (servers (_config (self s))) (begin s) Hnd)
    as (extra & E & F).
  assert (Hsame : _tools (self (snd (start w s))) = extra
                  /\ _contexts (self (snd (start w s)))
                     = _contexts (self (run_servers w (servers (_config (self s))) (begin s)))
                  /\ _clients (self (snd (start w s)))
                     = _clients (self (run_servers w (servers (_config (self s))) (begin s)))).
  { rewrite (start_idle w s Hidle).
    destruct (fst (for_each (servers (_config (self s))) (start_server w) (begin s)));
      cbn [snd finish self _tools set_started _contexts _clients]; rewrite E; repeat split. }
  destruct Hsame as (Ht & Hcx & Hcl).
  unfold get_tools. rewrite Ht, Hcx, Hcl. intros Ha.
  rewrite Forall_forall in F. destruct (F a Ha) as (c & Hin & Hb).
  destruct Hb as (_ & He & Hb & Hd & Hp & Hx & Hc).
  exists c. repeat split; assumption.
Qed.

(** The adapter of [test_manager_start_idempotent]. *)
Lemma start_adapters_are_bound_witness :
  exists c,
    In ("s", c) (servers one_server_cfg)
    /\ enabled c = true
    /\ _build_transport "s" c = Returned (StreamableHttpTransport "http://x/mcp" (Some []))
    /\ In ("s", a_client)
         (_contexts (self (snd (start (w_serving [a_tool] []) (fresh one_server_cfg)))))
    /\ In ("s", a_client)
         (_clients (self (snd (start (w_serving [a_tool] []) (fresh one_server_cfg)))))
    /\ description (adapter_of "s" a_client a_tool) <> ""
    /\ parameters (adapter_of "s" a_client a_tool) <> [].
Proof.
  apply (start_adapters_are_bound (w_serving [a_tool] []) (fresh one_server_cfg)
           (adapter_of "s" a_client a_tool)).
  - reflexivity.
  - simpl. constructor; [intros [] | constructor].
  - simpl. left. reflexivity.
Defined.

(** X4. When [start] returns, the manager is started and [get_tools()] is
    the list that [start] returned.  What [start] raises is never an instance
    of [Exception], and it leaves the manager not started.  Where no
    connection and no discovery is interrupted, [start] returns. *)
Theorem start_returns_the_tools_it_keeps (w : World) (s : State) :
  (forall tools s',
      start w s = (Returned tools, s') ->
      get_tools (self s') = tools /\ is_started (self s') = true)
  /\ (forall e s',
        start w s = (Raised e, s') ->
        is_exception e = false /\ is_started (self s') = false)
  /\ (calm_start w -> exists tools s', start w s = (Returned tools, s')).
Proof.
  split; [|split].
  - intros tools s' E.
    assert (Hret : is_raised (fst (start w s)) = false) by now rewrite E.
    destruct (start_returned w s Hret) as (E' & Hst).
    rewrite E in E', Hst. cbn [snd] in E', Hst. injection E' as ->.
    split; [reflexivity | exact Hst].
  - intros e s' E.
    assert (Hr : fst (start w s) = Raised e) by now rewrite E.
    destruct (start_raises w s e Hr) as (He & Hst). rewrite E in Hst.
    split; [exact He | exact Hst].
  - intros Hcalm. destruct (start_returns w s Hcalm) as (s' & E & _).
    now exists (_tools (self s')), s'.
Qed.

(** One server that can be reached: [start] returns its one adapter. *)
Lemma start_returns_the_tools_it_keeps_witness :
  exists tools s',
    start (w_serving [a_tool] []) (fresh one_server_cfg) = (Returned tools, s').
Proof.
  apply (proj2 (proj2 (start_returns_the_tools_it_keeps (w_serving [a_tool] [])
                         (fresh one_server_cfg)))).
  split; intros h c e H; discriminate H.
Defined.

(** *** [stop] and [start], one after the other *)

Lemma count_enter_exits (h : list io_event) (l : dict Client) :
  count_enter (h ++ map (fun x => EvExit (snd x)) l)%list = count_enter h.
Proof.
  unfold count_enter. rewrite filter_app, length_app.
  replace (filter is_enter (map (fun x => EvExit (snd x)) l)) with (@nil io_event).
  - simpl. lia.
  - induction l as [|x l IH]; [reflexivity | exact IH].
Qed.

(** X5. After a [stop] that returned, a second [stop] does nothing: it
    awaits no call, logs nothing and leaves the state of the first. *)
Theorem stop_twice (w : World) (s : State) :
  is_raised (fst (stop w s)) = false ->
  stop w (snd (stop w s)) = (Returned tt, snd (stop w s)).
Proof.
  intros Hret. destruct (stop_returned w s Hret) as (_ & E).
  rewrite E. cbn [snd]. rewrite stop_eq. reflexivity.
Qed.

(** Two open sessions whose [__aexit__] both raise a [RuntimeError], stopped
    twice. *)
Lemma stop_twice_witness :
  stop (w_bad_close []) (snd (stop (w_bad_close []) two_sessions))
  = (Returned tt, snd (stop (w_bad_close []) two_sessions)).
Proof.
  apply (stop_twice (w_bad_close []) two_sessions). reflexivity.
Defined.

(** X6. Where no awaited call of the two is interrupted, [start] after [stop]
    is a new start, not the cached one: it returns, the manager is started,
    the list is rebuilt from empty, and [__aenter__] is awaited once more for
    every server that is enabled and has a valid transport, whatever was open
    before the [stop]. *)
Theorem start_after_stop_reconnects (w : World) (s : State) :
  calm_stop w ->
  calm_start w ->
  exists tools s2,
    start w (snd (stop w s)) = (Returned tools, s2)
    /\ is_started (self s2) = true
    /\ count_enter (io (rt s2))
       = count_enter (io (rt s))
         + List.length (filter attempted (servers (_config (self s))))
    /\ (forall a, In a tools ->
                  In (_server_name a) (map fst (servers (_config (self s))))).
Proof.
  intros Hstop Hstart.
  rewrite (stop_calm w s Hstop). cbn [snd].
  set (s1 := mk_state _ _).
  rewrite (start_idle_calm w s1 Hstart eq_refl).
  eexists _, _. split; [reflexivity|]. split; [reflexivity|]. split.
  - cbn [finish rt]. rewrite run_servers_enter_count.
    2:{ now rewrite (loop_returns w _ _ Hstart). }
    subst s1. cbn [begin rt self _config].
    destruct (close_loop w (_contexts (self s)) s) as (_ & Hio).
    { now rewrite (close_loop_returns w _ s Hstop). }
    now rewrite Hio, count_enter_exits.
  - intros a Ha.
    destruct (run_servers_tools w (servers (_config (self s1))) (begin s1))
      as (extra & E & F).
    rewrite E in Ha. cbn [begin self _tools set_tools app] in Ha.
    rewrite Forall_forall in F. exact (F a Ha).
Qed.

(** Two sessions open, stopped and started again: four [__aenter__] in
    all. *)
Lemma start_after_stop_reconnects_witness :
  exists tools s2,
    start (w_serving [a_tool] []) (snd (stop (w_serving [a_tool] []) two_sessions))
    = (Returned tools, s2)
    /\ is_started (self s2) = true
    /\ count_enter (io (rt s2)) = 4
    /\ (forall a, In a tools -> In (_server_name a) ["s1"; "s2"]).
Proof.
  apply (start_after_stop_reconnects (w_serving [a_tool] []) two_sessions).
  - intros h c e H. discriminate H.
  - split; intros h c e H; discriminate H.
Defined.

(** *** Sessions *)

(** X7. In every state the manager goes through, the sessions of the session
    map are exactly the sessions that are open, in the order they were
    opened: those whose [__aenter__] returned and on which [__aexit__] was not
    awaited since.  (The keys of a [dict] are distinct.) *)
Theorem session_map_holds_the_open_sessions (w : World) (config : McpConfig) (s : State) :
  NoDup (map fst (servers config)) ->
  reachable w config s ->
  open_sessions w (io (rt s)) = map snd (_contexts (self s)).
Proof.
  intros Hnd Hr. exact (proj1 (proj2 (reachable_sessions w config s Hnd Hr))).
Qed.

(** Two servers, both connected: the map holds the two sessions. *)
Lemma session_map_holds_the_open_sessions_witness :
  open_sessions (w_serving [a_tool] []) (io (rt two_sessions))
  = map snd (_contexts (self two_sessions)).
Proof.
  apply (session_map_holds_the_open_sessions (w_serving [a_tool] [])
           (mk_config [("s1", http_server "http://a/mcp");
                       ("s2", stdio_server "node" ["s.js"])])).
  - simpl. constructor; [intros [H|[]]; discriminate H|].
    constructor; [intros [] | constructor].
  - apply reach_start; [apply reach_fresh | reflexivity].
Defined.


(** X8. When the session of a server opens and the listing of its tools
    raises [e], the iteration of [start] leaves the session registered in both
    maps and makes no adapter, having awaited these two calls.  When [e] is an
    instance of [Exception] the warning is logged and the iteration returns;
    otherwise nothing is logged and the iteration raises [e]. *)
Theorem failed_discovery_keeps_the_session (w : World) (n : string)
  (c : McpServerConfig) (s : State) (t : Transport) (e : exn) :
  enabled c = true ->
  _build_transport n c = Returned t ->
  w_aenter w (io (rt s)) (mk_client t) = Returned tt ->
  w_list_tools w (io (rt s) ++ [EvEnter (mk_client t)])%list (mk_client t) = Raised e ->
  exists s',
    start_server w (n, c) s = (if is_exception e then Returned tt else Raised e, s')
    /\ In (n, mk_client t) (_contexts (self s'))
    /\ In (n, mk_client t) (_clients (self s'))
    /\ _tools (self s') = _tools (self s)
    /\ io (rt s') = (io (rt s) ++ [EvEnter (mk_client t); EvListTools (mk_client t)])%list
    /\ log (rt s')
       = if is_exception e then
           (log (rt s)
              ++ [mk_log WARNING
                    ("MCP server '" ++ n ++ "' failed to connect: " ++ exn_msg e)])%list
         else log (rt s).
Proof.
  intros Hen Ht Hopen Hlist.
  rewrite start_server_eq, Hen. cbn [negb].
  rewrite (connect_server_discovery_fails w n c s t e Ht Hopen Hlist).
  destruct (is_exception e); (eexists; split; [reflexivity|]);
    cbn [warned logged awaited registered self rt io log record_io record_log
           _contexts _clients _tools set_contexts set_clients];
    repeat split; try apply dict_set_in; now rewrite <- app_assoc.
Qed.

(** A server that accepts the session and refuses to list its tools. *)
Lemma failed_discovery_keeps_the_session_witness :
  exists s',
    start_server (w_no_listing "no tools") ("s", http_server "http://x/mcp")
      (fresh one_server_cfg) = (Returned tt, s')
    /\ In ("s", a_client) (_contexts (self s'))
    /\ In ("s", a_client) (_clients (self s'))
    /\ _tools (self s') = []
    /\ io (rt s') = [EvEnter a_client; EvListTools a_client]
    /\ log (rt s')
       = [mk_log WARNING "MCP server 's' failed to connect: no tools"].
Proof.
  exact (failed_discovery_keeps_the_session (w_no_listing "no tools") "s"
           (http_server "http://x/mcp") (fresh one_server_cfg)
           (StreamableHttpTransport "http://x/mcp" (Some []))
           (mk_exn "McpError" "no tools") eq_refl eq_refl eq_refl eq_refl).
Defined.

End MoreProps.

(** ** The calendar tool *)

Module CalendarProps.

Import Calendar PyFacts.

Lemma str_in_skip (a sub s : string) :
  str_in sub s = true -> str_in sub (a ++ s) = true.
Proof.
  intros H. destruct (str_in_elim sub s H) as (pre & post & ->).
  rewrite <- append_assoc. apply str_in_intro.
Qed.

(** *** Credentials *)

(** [_get_credentials], by the point where it ends. *)
Lemma get_credentials_eq (g : Google) (self : GoogleCalendarTool) (h : History) :
  let p := g_expanduser g (token_path (config self)) in
  let h1 := (h ++ [GExists p])%list in
  let h2 := (h1 ++ [GLoadToken p SCOPES])%list in
  _get_credentials g self h =
  if g_exists g h p then
    match g_load_token g h1 p SCOPES with
    | Raised e => (Raised e, h2)
    | Returned c =>
        if valid c then (Returned (Some c), h2)
        else if expired c
                && match refresh_token c with Some t => truthy_str t | None => false end
        then
          let h3 := (h2 ++ [GRefresh c])%list in
          match g_refresh g h2 c with
          | Raised e => if is_exception e then (Returned None, h3) else (Raised e, h3)
          | Returned c' =>
              let h4 := (h3 ++ [GEnsureDir (g_parent g p)])%list in
              match g_ensure_dir g h3 (g_parent g p) with
              | Raised e => if is_exception e then (Returned None, h4) else (Raised e, h4)
              | Returned _ =>
                  let h5 := (h4 ++ [GWrite p (to_json c')])%list in
                  match g_write g h4 p (to_json c') with
                  | Raised e =>
                      if is_exception e then (Returned None, h5) else (Raised e, h5)
                  | Returned _ => (Returned (Some c'), h5)
                  end
              end
          end
        else (Returned None, h2)
    end
  else (Returned None, h1).
Proof.
  cbv zeta. unfold _get_credentials, bind at 1, call at 1.
  destruct (g_exists g h (g_expanduser g (token_path (config self)))).
  2:{ reflexivity. }
  unfold bind at 1. unfold bind at 1, call at 1.
  destruct (g_load_token g _ _ SCOPES) as [c|e]; [|reflexivity].
  cbn [ret]. destruct (valid c); [reflexivity|].
  destruct (expired c && _); [|reflexivity].
  unfold try_except, bind at 1, call at 1.
  destruct (g_refresh g _ c) as [c'|e]; [|reflexivity].
  unfold bind at 1, call at 1.
  destruct (g_ensure_dir g _ _) as [[]|e]; [|reflexivity].
  unfold bind at 1, call at 1.
  destruct (g_write g _ _ _) as [[]|e]; reflexivity.
Qed.



(** [_get_credentials] raises an instance of [Exception] only when the token
    file is there and loading it raises. *)
Lemma get_credentials_raised (g : Google) (self : GoogleCalendarTool)
  (h h' : History) (e : exn) :
  _get_credentials g self h = (Raised e, h') ->
  is_exception e = true ->
  g_exists g h (g_expanduser g (token_path (config self))) = true
  /\ g_load_token g (h ++ [GExists (g_expanduser g (token_path (config self)))])%list
       (g_expanduser g (token_path (config self))) SCOPES = Raised e.
Proof.
  rewrite get_credentials_eq. cbv zeta.
  destruct (g_exists g h _); [|discriminate].
  destruct (g_load_token g _ _ SCOPES) as [c0|e0]; [|now intros [= <- _]].
  destruct (valid c0); [discriminate|].
  destruct (expired c0 && _); [|discriminate].
  destruct (g_refresh g _ c0) as [c'|e1].
  2:{ destruct (is_exception e1) eqn:He1; [discriminate|]. intros [= <- _]. congruence. }
  destruct (g_ensure_dir g _ _) as [[]|e1].
  2:{ destruct (is_exception e1) eqn:He1; [discriminate|]. intros [= <- _]. congruence. }
  destruct (g_write g _ _ _) as [[]|e1]; [discriminate|].
  destruct (is_exception e1) eqn:He1; [discriminate|]. intros [= <- _]. congruence.
Qed.

(** *** The guards of [execute] *)

(** X12. A tool that is disabled, or called without an action (no ["action"]
    argument, or one that is [None], empty, zero or false), answers with the
    message for that and touches nothing: no file is looked at and no call is
    made; the message for a disabled tool comes first. *)
Theorem execute_refuses_without_touching (g : Google) (self : GoogleCalendarTool)
  (kwargs : dict json) (h : History) :
  enabled (config self) = false
  \/ truthy (dict_get kwargs "action" JNull) = false ->
  execute g self kwargs h =
  (Returned (if enabled (config self)
             then "Missing required parameter: 'action'."
             else "Google Calendar tool is disabled in configuration."), h).
Proof.
  unfold execute. destruct (enabled (config self)); [|reflexivity].
  intros [H|H]; [discriminate|]. cbn [negb]. now rewrite H.
Qed.

(** No arguments at all; an action that is the empty string. *)
Lemma execute_refuses_without_touching_witness :
  execute (a_google None [] some_events) a_tool [] []
  = (Returned "Missing required parameter: 'action'.", [])
  /\ execute (a_google None [] some_events) a_tool [("action", JStr "")] []
     = (Returned "Missing required parameter: 'action'.", []).
Proof.
  split.
  - exact (execute_refuses_without_touching (a_google None [] some_events) a_tool
             [] [] (or_intror eq_refl)).
  - exact (execute_refuses_without_touching (a_google None [] some_events) a_tool
             [("action", JStr "")] [] (or_intror eq_refl)).
Defined.

(** [execute] once the tool is enabled and has an action. *)
Lemma execute_enabled (g : Google) (self : GoogleCalendarTool) (kwargs : dict json)
  (h : History) :
  enabled (config self) = true ->
  truthy (dict_get kwargs "action" JNull) = true ->
  execute g self kwargs h =
  match _get_credentials g self h with
  | (Raised e, h1) => (Raised e, h1)
  | (Returned None, h1) => (Returned (authentication_required self), h1)
  | (Returned (Some creds), h1) =>
      match g_build g h1 creds with
      | Raised e =>
          if is_exception e then
            (Returned ("Error executing Google Calendar action: " ++ exn_msg e),
             (h1 ++ [GBuild creds])%list)
          else (Raised e, (h1 ++ [GBuild creds])%list)
      | Returned service =>
          match dispatch g service (dict_get kwargs "action" JNull) kwargs
                  (h1 ++ [GBuild creds])%list with
          | (Returned r, h2) => (Returned r, h2)
          | (Raised e, h2) =>
              if is_exception e then
                (Returned ("Error executing Google Calendar action: " ++ exn_msg e), h2)
              else (Raised e, h2)
          end
      end
  end.
Proof.
  intros Hen Hact. unfold execute. rewrite Hen, Hact. cbn [negb].
  unfold bind at 1. destruct (_get_credentials g self h) as [[[creds|]|e] h1];
    try reflexivity.
  unfold try_except, bind, call.
  destruct (g_build g h1 creds) as [service|e]; [|reflexivity].
  destruct (dispatch g service _ kwargs _) as [[r|e] h2]; reflexivity.
Qed.

(** X13. [execute] raises an instance of [Exception] in one case only: the
    tool is enabled, an action is given, the token file exists and loading it
    raises; that exception is the one [execute] raises.  What the calls inside
    a [try] raise, when it is an instance of [Exception], is caught. *)
Theorem execute_raises_only_on_token_load (g : Google) (self : GoogleCalendarTool)
  (kwargs : dict json) (h : History) (e : exn) :
  is_exception e = true ->
  fst (execute g self kwargs h) = Raised e
  <-> enabled (config self) = true
      /\ truthy (dict_get kwargs "action" JNull) = true
      /\ g_exists g h (g_expanduser g (token_path (config self))) = true
      /\ g_load_token g (h ++ [GExists (g_expanduser g (token_path (config self)))])%list
           (g_expanduser g (token_path (config self))) SCOPES = Raised e.
Proof.
  intros He. split.
  - intros H.
    destruct (enabled (config self)) eqn:Hen.
    2:{ rewrite execute_refuses_without_touching in H by (left; exact Hen).
        discriminate H. }
    destruct (truthy (dict_get kwargs "action" JNull)) eqn:Hact.
    2:{ rewrite execute_refuses_without_touching in H by (right; exact Hact).
        discriminate H. }
    rewrite (execute_enabled g self kwargs h Hen Hact) in H.
    destruct (_get_credentials g self h) as [[[creds|]|e0] h1] eqn:Hc.
    + destruct (g_build g h1 creds) as [service|e1].
      2:{ destruct (is_exception e1) eqn:He1; [discriminate H|].
          injection H as ->. congruence. }
      destruct (dispatch g service _ kwargs _) as [[r|e1] h2]; [discriminate H|].
      destruct (is_exception e1) eqn:He1; [discriminate H|].
      injection H as ->. congruence.
    + discriminate H.
    + cbn [fst] in H. injection H as ->.
      destruct (get_credentials_raised g self h h1 e Hc He) as [H1 H2]. now repeat split.
  - intros (Hen & Hact & Hex & Hload).
    rewrite (execute_enabled g self kwargs h Hen Hact), get_credentials_eq.
    cbv zeta. now rewrite Hex, Hload.
Qed.

(** A token file that is there and cannot be read as credentials. *)
Lemma execute_raises_only_on_token_load_witness :
  fst (execute (a_google (Some (Raised (mk_exn "ValueError" "bad token"))) [] some_events)
         a_tool [("action", JStr "list")] [])
  = Raised (mk_exn "ValueError" "bad token").
Proof.
  apply (proj2 (execute_raises_only_on_token_load
                  (a_google (Some (Raised (mk_exn "ValueError" "bad token"))) [] some_events)
                  a_tool [("action", JStr "list")] [] (mk_exn "ValueError" "bad token")
                  eq_refl)).
  repeat split.
Defined.

(** X14. When there are no usable credentials, [execute] asks for
    authentication, naming the two paths of the configuration as they are
    written there, and makes no call on the Calendar API: it has done what
    [_get_credentials] did and nothing more. *)
Theorem execute_asks_for_authentication (g : Google) (self : GoogleCalendarTool)
  (kwargs : dict json) (h h1 : History) :
  enabled (config self) = true ->
  truthy (dict_get kwargs "action" JNull) = true ->
  _get_credentials g self h = (Returned None, h1) ->
  execute g self kwargs h = (Returned (authentication_required self), h1)
  /\ str_in (credentials_path (config self)) (authentication_required self) = true
  /\ str_in (token_path (config self)) (authentication_required self) = true.
Proof.
  intros Hen Hact Hc. rewrite (execute_enabled g self kwargs h Hen Hact), Hc.
  split; [reflexivity|]. unfold authentication_required. split.
  - do 3 apply str_in_skip. apply str_in_prefix.
  - do 6 apply str_in_skip. apply str_in_prefix.
Qed.

(** No token file: the file is looked for, and nothing else happens. *)
Lemma execute_asks_for_authentication_witness :
  execute (a_google None [] some_events) a_tool [("action", JStr "list")] []
  = (Returned (authentication_required a_tool), [GExists "~/token.json"])
  /\ str_in "~/credentials.json" (authentication_required a_tool) = true
  /\ str_in "~/token.json" (authentication_required a_tool) = true.
Proof.
  exact (execute_asks_for_authentication (a_google None [] some_events) a_tool
           [("action", JStr "list")] [] [GExists "~/token.json"]
           eq_refl eq_refl eq_refl).
Defined.

(** *** The order of the events *)

Lemma ltb_irrefl (a : string) : String.ltb a a = false.
Proof.
  unfold String.ltb. pose proof (String.compare_antisym a a) as H.
  destruct (String.compare a a); [reflexivity | discriminate H | reflexivity].
Qed.

Lemma ltb_true_leb (a b : string) : String.ltb a b = true -> String.leb a b = true.
Proof.
  unfold String.ltb, String.leb. now destruct (String.compare a b).
Qed.

Lemma ltb_false_leb (a b : string) : String.ltb a b = false -> String.leb b a = true.
Proof.
  unfold String.ltb, String.leb. rewrite (String.compare_antisym b a).
  now destruct (String.compare a b).
Qed.

Lemma insert_sorted_perm (x : string * TaggedEvent) (l : list (string * TaggedEvent)) :
  Permutation (x :: l) (insert_sorted x l).
Proof.
  induction l as [|y l IH]; cbn [insert_sorted]; [apply Permutation_refl|].
  destruct (String.ltb (fst y) (fst x)); [|apply Permutation_refl].
  eapply perm_trans; [apply perm_swap | apply perm_skip, IH].
Qed.

Lemma insert_sorted_sorted (x : string * TaggedEvent) (l : list (string * TaggedEvent)) :
  Sorted by_key l -> Sorted by_key (insert_sorted x l).
Proof.
  induction l as [|y l IH]; cbn [insert_sorted]; intros Hs.
  - constructor; constructor.
  - destruct (String.ltb (fst y) (fst x)) eqn:Hlt.
    + inversion Hs as [|? ? Hs' Hhd]; subst. constructor; [now apply IH|].
      destruct l as [|z l]; cbn [insert_sorted].
      * constructor. now apply ltb_true_leb.
      * destruct (String.ltb (fst z) (fst x)).
        -- constructor. now inversion Hhd.
        -- constructor. now apply ltb_true_leb.
    + constructor; [exact Hs|]. constructor. now apply ltb_false_leb.
Qed.

Lemma insert_sorted_stable (k : string) (x : string * TaggedEvent)
  (l : list (string * TaggedEvent)) :
  filter (fun y => String.eqb (fst y) k) (insert_sorted x l)
  = filter (fun y => String.eqb (fst y) k) (x :: l).
Proof.
  induction l as [|y l IH]; cbn [insert_sorted]; [reflexivity|].
  destruct (String.ltb (fst y) (fst x)) eqn:Hlt; [|reflexivity].
  cbn [filter] in *. rewrite IH.
  destruct (String.eqb_spec (fst y) k) as [Ey|Ny]; [|reflexivity].
  destruct (String.eqb_spec (fst x) k) as [Ex|Nx]; [|reflexivity].
  rewrite Ey, Ex, ltb_irrefl in Hlt. discriminate Hlt.
Qed.

Lemma stable_sort_facts (l : list (string * TaggedEvent)) :
  Permutation l (stable_sort l)
  /\ Sorted by_key (stable_sort l)
  /\ forall k, filter (fun y => String.eqb (fst y) k) (stable_sort l)
               = filter (fun y => String.eqb (fst y) k) l.
Proof.
  induction l as [|x l (Hp & Hs & Hf)]; cbn [stable_sort].
  - repeat split; constructor.
  - split; [|split].
    + eapply perm_trans; [apply perm_skip, Hp | apply insert_sorted_perm].
    + now apply insert_sorted_sorted.
    + intros k. rewrite insert_sorted_stable. cbn [filter]. now rewrite Hf.
Qed.

Lemma sort_keys_facts (l : list TaggedEvent) (keyed : list (option string * TaggedEvent)) :
  sort_keys l = Returned keyed ->
  map snd keyed = l
  /\ Forall (fun x => get_start (tagged_event (snd x)) = Returned (fst x)) keyed.
Proof.
  revert keyed; induction l as [|e l IH]; cbn [sort_keys]; intros keyed.
  - intros [= <-]. split; [reflexivity | constructor].
  - destruct (get_start (tagged_event e)) as [k|x] eqn:Hk; [|discriminate].
    destruct (sort_keys l) as [ks|x]; [|discriminate].
    intros [= <-]. destruct (IH ks eq_refl) as [Hm Hf].
    split; [cbn [map snd]; now rewrite Hm | constructor; [exact Hk | exact Hf]].
Qed.

Lemma string_keys_facts (keyed : list (option string * TaggedEvent))
  (ks : list (string * TaggedEvent)) :
  string_keys keyed = Some ks ->
  Forall (fun x => get_start (tagged_event (snd x)) = Returned (fst x)) keyed ->
  map snd ks = map snd keyed
  /\ Forall (fun x => fst x = start_key (snd x)) ks.
Proof.
  revert ks; induction keyed as [|[[k|] e] keyed IH]; cbn [string_keys]; intros ks.
  - intros [= <-] _. split; [reflexivity | constructor].
  - destruct (string_keys keyed) as [ks'|]; [|discriminate].
    intros [= <-] Hf. inversion Hf as [|? ? Hk Hf']; subst.
    destruct (IH ks' eq_refl Hf') as [Hm Hs].
    split; [cbn [map snd]; now rewrite Hm|].
    constructor; [|exact Hs]. cbn [fst snd] in *. unfold start_key. now rewrite Hk.
  - discriminate.
Qed.

Lemma sorted_by_start (l : list (string * TaggedEvent)) :
  Forall (fun x => fst x = start_key (snd x)) l ->
  Sorted by_key l -> Sorted by_start (map snd l).
Proof.
  induction l as [|x l IH]; intros Hf Hs; cbn [map]; [constructor|].
  inversion Hf as [|? ? Hx Hf']; subst. inversion Hs as [|? ? Hs' Hhd]; subst.
  constructor; [now apply IH|].
  destruct l as [|y l]; cbn [map]; constructor.
  inversion Hhd as [|? ? Hxy]; subst. inversion Hf' as [|? ? Hy _]; subst.
  unfold by_start, by_key in *. now rewrite <- Hx, <- Hy.
Qed.

Lemma filter_by_start (k : string) (l : list (string * TaggedEvent)) :
  Forall (fun x => fst x = start_key (snd x)) l ->
  filter (fun e => String.eqb (start_key e) k) (map snd l)
  = map snd (filter (fun y => String.eqb (fst y) k) l).
Proof.
  induction l as [|x l IH]; intros Hf; [reflexivity|].
  inversion Hf as [|? ? Hx Hf']; subst. cbn [map filter]. rewrite <- Hx, IH by exact Hf'.
  now destruct (String.eqb (fst x) k).
Qed.

Lemma sort_events_facts (g : Google) (l l' : list TaggedEvent) :
  sort_events g l = Returned l' ->
  Permutation l l'
  /\ Sorted by_start l'
  /\ forall k, filter (fun e => String.eqb (start_key e) k) l'
               = filter (fun e => String.eqb (start_key e) k) l.
Proof.
  unfold sort_events. destruct (sort_keys l) as [keyed|x] eqn:Hk; [|discriminate].
  destruct (sort_keys_facts l keyed Hk) as [Hm Hf].
  destruct keyed as [|x1 [|x2 keyed]].
  - intros [= <-]. destruct l; [|discriminate Hm]. repeat split; constructor.
  - intros [= <-]. destruct l as [|e [|e' l]]; try discriminate Hm.
    repeat split; [apply Permutation_refl | repeat constructor].
  - destruct (string_keys (x1 :: x2 :: keyed)) as [ks|] eqn:Hs; [|discriminate].
    intros [= <-].
    destruct (string_keys_facts _ ks Hs Hf) as [Hm' Hkey].
    destruct (stable_sort_facts ks) as (Hp & Hsorted & Hstable).
    assert (Hkey' : Forall (fun x => fst x = start_key (snd x)) (stable_sort ks)).
    { rewrite Forall_forall in *. intros x Hx. apply Hkey.
      eapply Permutation_in; [apply Permutation_sym, Hp | exact Hx]. }
    rewrite <- Hm, <- Hm'. split; [|split].
    + now apply Permutation_map.
    + now apply sorted_by_start.
    + intros k. rewrite !filter_by_start by assumption. now rewrite Hstable.
Qed.

(** X15. When the sort of [_list_events] returns, its result holds the same
    events, in non-decreasing order of their start (the ["dateTime"], else
    the ["date"]), and events of equal start are in the order they had. *)
Theorem sort_events_sorts (g : Google) (l l' : list TaggedEvent) :
  sort_events g l = Returned l' ->
  Permutation l l'
  /\ Sorted by_start l'
  /\ forall k, filter (fun e => String.eqb (start_key e) k) l'
               = filter (fun e => String.eqb (start_key e) k) l.
Proof.
  exact (sort_events_facts g l l').
Qed.

Lemma sort_keys_returns (l : list TaggedEvent) :
  Forall (fun e => exists k, get_start (tagged_event e) = Returned k) l ->
  exists keyed, sort_keys l = Returned keyed.
Proof.
  induction l as [|e l IH]; intros Hl; [now exists []|].
  inversion Hl as [|? ? (k & Hk) Hl']; subst. destruct (IH Hl') as (keyed & Hkeyed).
  exists ((k, e) :: keyed). cbn [sort_keys]. now rewrite Hk, Hkeyed.
Qed.

Lemma string_keys_some (keyed : list (option string * TaggedEvent)) :
  (exists ks, string_keys keyed = Some ks)
  <-> Forall (fun x => exists k, fst x = Some k) keyed.
Proof.
  induction keyed as [|[[k|] e] keyed IH]; cbn [string_keys].
  - split; [constructor | now exists []].
  - split.
    + intros (ks & H). destruct (string_keys keyed) as [ks'|]; [|discriminate].
      constructor; [now exists k | apply IH; now exists ks'].
    + intros H. inversion H as [|? ? _ H']; subst.
      destruct (proj2 IH H') as (ks' & ->). now eexists.
  - split; [intros (ks & H); discriminate H|].
    intros H. inversion H as [|? ? (k & Hk) _]; subst. discriminate Hk.
Qed.

(** X22. The sort of [_list_events] returns exactly when every gathered
    event has a ["start"] and, unless there is at most one event, every
    ["start"] has a ["dateTime"] or a ["date"]; otherwise it raises (the
    [KeyError] of ["start"], or the [TypeError] of a key that is [None]),
    which [execute] turns into its error string. *)
Theorem sort_events_returns_iff (g : Google) (l : list TaggedEvent) :
  (exists l', sort_events g l = Returned l')
  <-> Forall (fun e => exists k, get_start (tagged_event e) = Returned k) l
      /\ (List.length l <= 1
          \/ Forall (fun e => exists k, get_start (tagged_event e) = Returned (Some k)) l).
Proof.
  unfold sort_events. split.
  - intros (l' & H). destruct (sort_keys l) as [keyed|x] eqn:Hk; [|discriminate].
    destruct (sort_keys_facts l keyed Hk) as [Hm Hf]. subst l. split.
    + rewrite Forall_forall in *. intros e He. apply in_map_iff in He.
      destruct He as (x & <- & Hx). exists (fst x). now apply Hf.
    + destruct keyed as [|x1 [|x2 keyed]]; [left; cbn; lia | left; cbn; lia | right].
      destruct (string_keys (x1 :: x2 :: keyed)) as [ks|] eqn:Hs; [|discriminate].
      assert (Hsome : Forall (fun x => exists k, fst x = Some k) (x1 :: x2 :: keyed))
        by (apply string_keys_some; now exists ks).
      rewrite Forall_forall in *. intros e He. apply in_map_iff in He.
      destruct He as (x & <- & Hx). destruct (Hsome x Hx) as (k & Hk').
      exists k. rewrite <- Hk'. now apply Hf.
  - intros (Hstart & Hkeys). destruct (sort_keys_returns l Hstart) as (keyed & Hk).
    rewrite Hk. destruct (sort_keys_facts l keyed Hk) as [Hm Hf].
    destruct keyed as [|x1 [|x2 keyed]]; [now eexists | now eexists |].
    destruct Hkeys as [Hlen|Hall].
    { rewrite <- Hm in Hlen. cbn in Hlen. lia. }
    assert (Hsome : Forall (fun x => exists k, fst x = Some k) (x1 :: x2 :: keyed)).
    { rewrite Forall_forall in *. intros x Hx.
      destruct (Hall (snd x)) as (k & Hk').
      - rewrite <- Hm. now apply in_map.
      - exists k. rewrite (Hf x Hx) in Hk'. now injection Hk'. }
    apply string_keys_some in Hsome. destruct Hsome as (ks & ->). now eexists.
Qed.

(** Three events out of order, two of them on the same day. *)
Lemma sort_events_sorts_witness :
  Permutation
    [mk_tagged "Work" (an_event "2024-02-01" "review");
     mk_tagged "Work" (an_event "2024-01-10" "standup");
     mk_tagged "Unknown" (an_event "2024-01-10" "dentist")]
    [mk_tagged "Work" (an_event "2024-01-10" "standup");
     mk_tagged "Unknown" (an_event "2024-01-10" "dentist");
     mk_tagged "Work" (an_event "2024-02-01" "review")]
  /\ Sorted by_start
       [mk_tagged "Work" (an_event "2024-01-10" "standup");
        mk_tagged "Unknown" (an_event "2024-01-10" "dentist");
        mk_tagged "Work" (an_event "2024-02-01" "review")].
Proof.
  destruct (sort_events_sorts (a_google None [] some_events)
              [mk_tagged "Work" (an_event "2024-02-01" "review");
               mk_tagged "Work" (an_event "2024-01-10" "standup");
               mk_tagged "Unknown" (an_event "2024-01-10" "dentist")]
              _ eq_refl) as (Hp & Hs & _).
  split; [exact Hp | exact Hs].
Defined.

(** *** The loop over the calendars *)

(** The [try] of the loop: the events of one calendar, none when the request
    raises an instance of [Exception]. *)
Lemma events_of_calendar (g : Google) (service : Service) (id now : string) (mr : json)
  (summary : string) (h : History) :
  try_except
    (r <- call (fun h => g_events_list g h service id now mr)
            (GEventsList service id now mr) ;;
     ret (map (mk_tagged summary) (match r with Some l => l | None => [] end)))
    (fun _ => ret []) h
  = (match g_events_list g h service id now mr with
     | Returned r =>
         Returned (map (mk_tagged summary) (match r with Some l => l | None => [] end))
     | Raised e => if is_exception e then Returned [] else Raised e
     end,
     (h ++ [GEventsList service id now mr])%list).
Proof.
  unfold try_except, bind, call, ret.
  destruct (g_events_list g h service id now mr) as [r|e]; [reflexivity|].
  destruct (is_exception e); reflexivity.
Qed.

(** One turn of the loop. *)
Lemma fetch_events_cons (g : Google) (service : Service) (all_calendars : bool)
  (now : string) (mr : json) (cal : CalendarEntry) (rest : list CalendarEntry)
  (acc : list TaggedEvent) (h : History) :
  fetch_events g service all_calendars now mr (cal :: rest) acc h =
  match cal_id cal with
  | None => (Raised (KeyError "id"), h)
  | Some id =>
      if queried all_calendars cal then
        match g_events_list g h service id now mr with
        | Returned r =>
            fetch_events g service all_calendars now mr rest
              (acc ++ map (mk_tagged (listed_as cal))
                        (match r with Some l => l | None => [] end))%list
              (h ++ [GEventsList service id now mr])%list
        | Raised e =>
            if is_exception e then
              fetch_events g service all_calendars now mr rest (acc ++ [])%list
                (h ++ [GEventsList service id now mr])%list
            else (Raised e, (h ++ [GEventsList service id now mr])%list)
        end
      else fetch_events g service all_calendars now mr rest acc h
  end.
Proof.
  cbn [fetch_events]. destruct (cal_id cal) as [id|]; [|reflexivity].
  assert (Hc : all_calendars
               && negb (match cal_selected cal with Some b => b | None => false end)
               && negb (match cal_primary cal with Some b => b | None => false end)
               = negb (queried all_calendars cal))
    by (unfold queried; now rewrite negb_involutive).
  rewrite Hc. destruct (queried all_calendars cal); cbn [negb]; [|reflexivity].
  unfold bind at 1. rewrite events_of_calendar.
  destruct (g_events_list g h service id now mr) as [r|e]; [reflexivity|].
  destruct (is_exception e); reflexivity.
Qed.

(** The loop: the requests it makes, the events it adds, and what it raises,
    the [KeyError] of a calendar without an id or what a request raised that
    is not an instance of [Exception]. *)
Lemma fetch_events_facts (g : Google) (service : Service) (all_calendars : bool)
  (now : string) (mr : json) (targets : list CalendarEntry) :
  forall (acc : list TaggedEvent) (h : History),
  exists new,
    snd (fetch_events g service all_calendars now mr targets acc h) = (h ++ new)%list
    /\ Forall (fun ev => exists cal id,
                   In cal targets /\ queried all_calendars cal = true
                   /\ cal_id cal = Some id /\ ev = GEventsList service id now mr) new
    /\ match fst (fetch_events g service all_calendars now mr targets acc h) with
       | Returned evs =>
           exists extra,
             evs = (acc ++ extra)%list
             /\ Forall (fun te => exists cal,
                            In cal targets /\ queried all_calendars cal = true
                            /\ _calendar_summary te = listed_as cal) extra
       | Raised e =>
           (e = KeyError "id" /\ Exists (fun cal => cal_id cal = None) targets)
           \/ (is_exception e = false
               /\ exists h0 id, g_events_list g h0 service id now mr = Raised e)
       end.
Proof.
  induction targets as [|cal rest IH]; intros acc h.
  - exists []. cbn. rewrite app_nil_r. split; [reflexivity|]. split; [constructor|].
    exists []. now rewrite app_nil_r.
  - rewrite fetch_events_cons. destruct (cal_id cal) as [id|] eqn:Hid.
    2:{ exists []. cbn. rewrite app_nil_r. split; [reflexivity|]. split; [constructor|].
        left. split; [reflexivity | now constructor]. }
    destruct (queried all_calendars cal) eqn:Hq.
    + set (ev := GEventsList service id now mr).
      assert (Hgo : forall its,
                 Forall (fun te => _calendar_summary te = listed_as cal) its ->
                 forall new,
                   snd (fetch_events g service all_calendars now mr rest
                          (acc ++ its)%list (h ++ [ev])%list) = ((h ++ [ev]) ++ new)%list ->
                   Forall (fun ev => exists cal id,
                               In cal rest /\ queried all_calendars cal = true
                               /\ cal_id cal = Some id
                               /\ ev = GEventsList service id now mr) new ->
                   match fst (fetch_events g service all_calendars now mr rest
                                (acc ++ its)%list (h ++ [ev])%list) with
                   | Returned evs =>
                       exists extra,
                         evs = ((acc ++ its) ++ extra)%list
                         /\ Forall (fun te => exists cal,
                                        In cal rest /\ queried all_calendars cal = true
                                        /\ _calendar_summary te = listed_as cal) extra
                   | Raised e =>
                       (e = KeyError "id" /\ Exists (fun cal => cal_id cal = None) rest)
                       \/ (is_exception e = false
                           /\ exists h0 id, g_events_list g h0 service id now mr = Raised e)
                   end ->
                   snd (fetch_events g service all_calendars now mr rest
                          (acc ++ its)%list (h ++ [ev])%list) = (h ++ ev :: new)%list
                   /\ Forall (fun ev => exists cal0 id,
                                  In cal0 (cal :: rest) /\ queried all_calendars cal0 = true
                                  /\ cal_id cal0 = Some id
                                  /\ ev = GEventsList service id now mr) (ev :: new)
                   /\ match fst (fetch_events g service all_calendars now mr rest
                                   (acc ++ its)%list (h ++ [ev])%list) with
                      | Returned evs =>
                          exists extra,
                            evs = (acc ++ extra)%list
                            /\ Forall (fun te => exists cal0,
                                           In cal0 (cal :: rest)
                                           /\ queried all_calendars cal0 = true
                                           /\ _calendar_summary te = listed_as cal0) extra
                      | Raised e =>
                          (e = KeyError "id"
                           /\ Exists (fun cal => cal_id cal = None) (cal :: rest))
                          \/ (is_exception e = false
                              /\ exists h0 id,
                                   g_events_list g h0 service id now mr = Raised e)
                      end).
      { intros its Hits new Hh Hnew Hres.
        split; [rewrite Hh; now rewrite <- app_assoc|]. split.
        - constructor; [exists cal, id; repeat split; auto; now left|].
          eapply Forall_impl; [|exact Hnew].
          intros x (c & i & Hin & H1 & H2 & H3). exists c, i. repeat split; auto. now right.
        - destruct (fst (fetch_events g service all_calendars now mr rest
                           (acc ++ its)%list (h ++ [ev])%list)) as [evs|e].
          + destruct Hres as (extra & -> & Hextra). exists (its ++ extra)%list.
            split; [now rewrite app_assoc|]. apply Forall_app. split.
            * eapply Forall_impl; [|exact Hits]. intros te Hte. exists cal.
              repeat split; auto. now left.
            * eapply Forall_impl; [|exact Hextra].
              intros te (c & Hin & H1 & H2). exists c. repeat split; auto. now right.
          + destruct Hres as [[-> Hex]|Hun]; [left | right; exact Hun].
            split; [reflexivity | now constructor 2]. }
      destruct (g_events_list g h service id now mr) as [r|e] eqn:Hev;
        [|destruct (is_exception e) eqn:He].
      * match goal with
        | |- context [fetch_events _ _ _ _ _ rest (acc ++ ?its)%list _] =>
            destruct (IH (acc ++ its)%list (h ++ [ev])%list) as (new & Hh & Hnew & Hres);
            exists (ev :: new); apply (Hgo its); auto
        end.
        apply Forall_forall. intros te Hte.
        apply in_map_iff in Hte. destruct Hte as (e0 & <- & _). reflexivity.
      * destruct (IH (acc ++ [])%list (h ++ [ev])%list) as (new & Hh & Hnew & Hres).
        exists (ev :: new). apply (Hgo []); auto.
      * exists [ev]. cbn [fst snd]. split; [reflexivity|]. split.
        -- constructor; [|constructor]. exists cal, id. repeat split; auto. now left.
        -- right. split; [exact He|]. now exists h, id.
    + destruct (IH acc h) as (new & Hh & Hnew & Hres).
      exists new. split; [exact Hh|]. split.
      * eapply Forall_impl; [|exact Hnew].
        intros x (c & i & Hin & H1 & H2 & H3). exists c, i. repeat split; auto. now right.
      * destruct (fst (fetch_events g service all_calendars now mr rest acc h)) as [evs|e].
        -- destruct Hres as (extra & -> & Hextra). exists extra. split; [reflexivity|].
           eapply Forall_impl; [|exact Hextra].
           intros te (c & Hin & H1 & H2). exists c. repeat split; auto. now right.
        -- destruct Hres as [[-> Hex]|Hun]; [left | right; exact Hun].
           split; [reflexivity | now constructor 2].
Qed.



(** *** The list of events *)

Lemma sorted_firstn {A : Type} (R : A -> A -> Prop) (n : nat) (l : list A) :
  Sorted R l -> Sorted R (firstn n l).
Proof.
  revert l; induction n as [|n IH]; intros l Hs; [constructor|].
  destruct l as [|x l]; [constructor|]. cbn [firstn].
  inversion Hs as [|? ? Hs' Hhd]; subst. constructor; [now apply IH|].
  destruct n; [constructor|]. destruct l as [|y l]; [constructor|].
  cbn [firstn]. constructor. now inversion Hhd.
Qed.

Lemma in_firstn {A : Type} (n : nat) (l : list A) (x : A) :
  In x (firstn n l) -> In x l.
Proof.
  revert l; induction n as [|n IH]; intros l; [intros []|].
  destruct l as [|y l]; cbn [firstn]; [intros []|].
  intros [->|Hx]; [now left | right; now apply IH].
Qed.

Lemma slice_to_firstn {A : Type} (l cut : list A) (stop : json) :
  slice_to l stop = Returned cut ->
  (exists k, cut = firstn k l)
  /\ (forall n, stop = JInt n -> (0 <= n)%Z -> List.length cut <= Z.to_nat n).
Proof.
  destruct stop as [|b|z|?|?|?]; cbn [slice_to]; try discriminate; intros [= <-].
  - split; [exists (List.length l); now rewrite firstn_all | discriminate].
  - split; [eexists; reflexivity | discriminate].
  - split.
    + destruct (0 <=? z)%Z; eexists; reflexivity.
    + intros n [= ->] Hn. apply Z.leb_le in Hn. rewrite Hn. apply firstn_le_length.
Qed.

Lemma upcoming_events_eq (g : Google) (service : Service) (mr cid : json) (h : History)
  (cut : list TaggedEvent) :
  fst (upcoming_events g service mr cid h) = Returned (Upcoming cut) ->
  exists targets (h1 : History) gathered sorted,
    fst (fetch_events g service (eq_str cid "all") (g_now g h) mr targets [] h1)
    = Returned gathered
    /\ (if eq_str cid "all"
        then exists items, g_calendar_list g (h ++ [GNow])%list service = Returned items
                           /\ targets = match items with Some l => l | None => [] end
        else exists meta, g_calendar_get g (h ++ [GNow])%list service cid = Returned meta
                          /\ targets = [meta])
    /\ sort_events g gathered = Returned sorted
    /\ slice_to sorted mr = Returned cut.
Proof.
  unfold upcoming_events, bind at 1, call at 1. unfold bind at 1.
  destruct (eq_str cid "all") eqn:Hall.
  - unfold bind at 1, call at 1.
    destruct (g_calendar_list g _ service) as [items|e] eqn:Hl; [|discriminate].
    cbn [ret]. unfold bind at 1.
    destruct (fetch_events g service true (g_now g h) mr _ [] _) as [[gathered|e] h2] eqn:Hf;
      [|discriminate].
    destruct gathered as [|e0 gathered]; [discriminate|].
    unfold bind at 1, lift_outcome at 1.
    destruct (sort_events g (e0 :: gathered)) as [sorted|e] eqn:Hs; [|discriminate].
    unfold bind, lift_outcome, ret.
    destruct (slice_to sorted mr) as [cut'|e] eqn:Hc; [|discriminate].
    cbn [fst]. intros [= <-].
    match type of Hf with
    | fetch_events _ _ _ _ _ ?t _ ?h1 = _ => exists t, h1, (e0 :: gathered), sorted
    end.
    rewrite Hf. split; [reflexivity|]. split; [|now split].
    exists items. now split.
  - unfold try_except, bind at 1, call at 1.
    destruct (g_calendar_get g _ service cid) as [meta|e] eqn:Hl;
      [|destruct (is_exception e); discriminate].
    cbn [ret]. unfold bind at 1.
    destruct (fetch_events g service false (g_now g h) mr _ [] _) as [[gathered|e] h2] eqn:Hf;
      [|discriminate].
    destruct gathered as [|e0 gathered]; [discriminate|].
    unfold bind at 1, lift_outcome at 1.
    destruct (sort_events g (e0 :: gathered)) as [sorted|e] eqn:Hs; [|discriminate].
    unfold bind, lift_outcome, ret.
    destruct (slice_to sorted mr) as [cut'|e] eqn:Hc; [|discriminate].
    cbn [fst]. intros [= <-].
    match type of Hf with
    | fetch_events _ _ _ _ _ ?t _ ?h1 = _ => exists t, h1, (e0 :: gathered), sorted
    end.
    rewrite Hf. split; [reflexivity|]. split; [|now split].
    exists meta. now split.
Qed.

(** X17. The events that [_list_events] lists are in non-decreasing order of
    their start, and when [max_results] is a non-negative integer there are
    at most that many; with [calendar_id == "all"] each of them is tagged
    with the summary (or "Unknown") of a calendar of the account that is
    selected or primary. *)
Theorem listed_events_sorted_and_cut (g : Google) (service : Service)
  (mr cid : json) (h : History) (cut : list TaggedEvent) :
  fst (upcoming_events g service mr cid h) = Returned (Upcoming cut) ->
  Sorted by_start cut
  /\ (forall n, mr = JInt n -> (0 <= n)%Z -> List.length cut <= Z.to_nat n)
  /\ (cid = JStr "all" ->
      exists items,
        g_calendar_list g (h ++ [GNow])%list service = Returned items
        /\ Forall (fun te => exists cal,
                       In cal (match items with Some l => l | None => [] end)
                       /\ shown cal = true
                       /\ _calendar_summary te = listed_as cal) cut).
Proof.
  intros H. destruct (upcoming_events_eq g service mr cid h cut H)
    as (targets & h1 & gathered & sorted & Hf & Ht & Hs & Hc).
  destruct (sort_events_facts g gathered sorted Hs) as (Hp & Hsorted & _).
  destruct (slice_to_firstn sorted cut mr Hc) as [(k & ->) Hlen].
  split; [now apply sorted_firstn|]. split; [exact Hlen|].
  intros ->. cbn [eq_str String.eqb Ascii.eqb Bool.eqb] in Ht, Hf.
  destruct Ht as (items & Hl & ->). exists items. split; [exact Hl|].
  destruct (fetch_events_facts g service true (g_now g h) mr
              (match items with Some l => l | None => [] end) [] h1)
    as (_ & _ & _ & Hres).
  rewrite Hf in Hres. destruct Hres as (extra & E & Hextra).
  cbn [app] in E. subst extra.
  apply Forall_forall. intros te Hte. apply in_firstn in Hte.
  apply (Permutation_in _ (Permutation_sym Hp)) in Hte.
  rewrite Forall_forall in Hextra. destruct (Hextra te Hte) as (cal & Hin & Hq & Htag).
  exists cal. repeat split; auto.
  unfold queried in Hq. unfold shown. cbn [andb] in Hq.
  destruct (match cal_selected cal with Some b => b | None => false end),
    (match cal_primary cal with Some b => b | None => false end); auto.
Qed.

(** The account of the situations, at most two events asked for. *)
Lemma listed_events_sorted_and_cut_witness :
  Sorted by_start
    [mk_tagged "Work" (an_event "2024-01-10" "standup");
     mk_tagged "Unknown" (an_event "2024-01-10" "dentist")]
  /\ List.length
       [mk_tagged "Work" (an_event "2024-01-10" "standup");
        mk_tagged "Unknown" (an_event "2024-01-10" "dentist")] <= 2.
Proof.
  destruct (listed_events_sorted_and_cut
              (a_google (Some (Returned a_token)) [work; hidden; home] some_events)
              (mk_service a_token) (JInt 2) (JStr "all") []
              [mk_tagged "Work" (an_event "2024-01-10" "standup");
               mk_tagged "Unknown" (an_event "2024-01-10" "dentist")]
              eq_refl) as (Hs & Hlen & _).
  split; [exact Hs|]. apply (Hlen 2%Z eq_refl). discriminate.
Defined.

(** X18. For a [calendar_id] other than "all", when the request for the
    calendar raises, whatever the instance of [Exception], [_list_events]
    returns the message that the calendar was not found, with the id as [str]
    gives it, and asks for no events: it has read the clock and made that one
    request. *)
Theorem list_events_calendar_not_found (g : Google) (service : Service)
  (mr cid : json) (h : History) (e : exn) :
  eq_str cid "all" = false ->
  g_calendar_get g (h ++ [GNow])%list service cid = Raised e ->
  is_exception e = true ->
  _list_events g service mr cid h
  = (Returned ("Error: Calendar ID '" ++ str g cid ++ "' not found."),
     (h ++ [GNow; GCalendarGet service cid])%list)
  /\ (forall id, cid = JStr id ->
                 str g cid = id).
Proof.
  intros Hall Hget He. split; [|now intros id ->].
  unfold _list_events, bind at 1, upcoming_events, bind at 1, call at 1.
  unfold bind at 1. rewrite Hall. unfold try_except, bind at 1, call at 1.
  rewrite Hget, He. cbn. now rewrite <- app_assoc.
Qed.

(** A calendar the account does not have. *)
Lemma list_events_calendar_not_found_witness :
  _list_events (a_google (Some (Returned a_token)) [work] some_events)
    (mk_service a_token) (JInt 10) (JStr "nowhere") []
  = (Returned "Error: Calendar ID 'nowhere' not found.",
     [GNow; GCalendarGet (mk_service a_token) (JStr "nowhere")]).
Proof.
  exact (proj1 (list_events_calendar_not_found
                  (a_google (Some (Returned a_token)) [work] some_events)
                  (mk_service a_token) (JInt 10) (JStr "nowhere") []
                  (mk_exn "HttpError" "Not Found") eq_refl eq_refl eq_refl)).
Defined.

(** *** The list of calendars *)

Lemma concat_empty_cons (x : string) (l : list string) :
  String.concat "" (x :: l) = x ++ String.concat "" l.
Proof.
  destruct l as [|y l]; cbn [String.concat]; [now rewrite append_empty_r | reflexivity].
Qed.

Lemma calendar_lines_complete (result : string) (calendars : list CalendarEntry) :
  Forall (fun cal => cal_summary cal <> None /\ cal_id cal <> None) calendars ->
  calendar_lines result calendars
  = Returned (result
                ++ String.concat ""
                     (map (fun cal => line_of (str_opt (cal_summary cal))
                                        (str_opt (cal_id cal))) calendars)).
Proof.
  revert result; induction calendars as [|cal rest IH]; intros result Hc.
  - cbn. now rewrite append_empty_r.
  - inversion Hc as [|? ? [Hs Hi] Hrest]; subst.
    cbn [calendar_lines map]. rewrite concat_empty_cons. unfold calendar_line.
    destruct (cal_summary cal) as [summary|]; [|now elim Hs].
    destruct (cal_id cal) as [id|]; [|now elim Hi].
    rewrite (IH _ Hrest). cbn [str_opt]. fold (line_of summary id).
    now rewrite append_assoc.
Qed.

Lemma calendar_lines_incomplete (result : string) (pre post : list CalendarEntry)
  (cal : CalendarEntry) :
  Forall (fun cal => cal_summary cal <> None /\ cal_id cal <> None) pre ->
  cal_summary cal = None \/ cal_id cal = None ->
  calendar_lines result (pre ++ cal :: post)%list
  = Raised (KeyError (match cal_summary cal with None => "summary" | Some _ => "id" end)).
Proof.
  revert result; induction pre as [|c pre IH]; intros result Hc Hmiss.
  - cbn [app calendar_lines]. unfold calendar_line.
    destruct (cal_summary cal) as [summary|]; [|reflexivity].
    destruct Hmiss as [Hm|Hm]; [discriminate Hm|]. now rewrite Hm.
  - inversion Hc as [|? ? [Hs Hi] Hrest]; subst.
    cbn [app calendar_lines]. unfold calendar_line at 1.
    destruct (cal_summary c) as [summary|]; [|now elim Hs].
    destruct (cal_id c) as [id|]; [|now elim Hi].
    now apply IH.
Qed.

(** X19. [_list_calendars] makes one request.  When the account has
    calendars and each has a summary and an id, the result is the header
    followed by one line per calendar, in the order of the answer.  The first
    calendar that lacks one of the two keys makes it raise the [KeyError] of
    that key (of ["summary"] when it lacks both), whatever comes after. *)
Theorem list_calendars_lines (g : Google) (service : Service) (h : History)
  (cal : CalendarEntry) (pre post : list CalendarEntry) :
  g_calendar_list g h service = Returned (Some (pre ++ cal :: post)%list) ->
  Forall (fun cal => cal_summary cal <> None /\ cal_id cal <> None) pre ->
  snd (_list_calendars g service h) = (h ++ [GCalendarList service])%list
  /\ (cal_summary cal <> None /\ cal_id cal <> None ->
      Forall (fun cal => cal_summary cal <> None /\ cal_id cal <> None) post ->
      fst (_list_calendars g service h)
      = Returned ("Available Calendars:" ++ nl
                    ++ String.concat ""
                         (map (fun cal => line_of (str_opt (cal_summary cal))
                                            (str_opt (cal_id cal)))
                            (pre ++ cal :: post)%list)))
  /\ (cal_summary cal = None \/ cal_id cal = None ->
      fst (_list_calendars g service h)
      = Raised (KeyError (match cal_summary cal with
                          | None => "summary"
                          | Some _ => "id"
                          end))).
Proof.
  intros Hl Hpre. unfold _list_calendars, bind, call. rewrite Hl.
  destruct (pre ++ cal :: post)%list as [|c0 l0] eqn:E.
  { now destruct pre. }
  rewrite <- E. unfold lift_outcome. cbn [fst snd]. split; [reflexivity|]. split.
  - intros Hcal Hpost. rewrite calendar_lines_complete.
    + now rewrite append_assoc.
    + apply Forall_app. split; [exact Hpre | now constructor].
  - intros Hmiss. now apply calendar_lines_incomplete.
Qed.

(** Two calendars; then two calendars and a third without a summary. *)
Lemma list_calendars_lines_witness :
  fst (_list_calendars (a_google None [work; hidden] some_events) (mk_service a_token) [])
  = Returned ("Available Calendars:" ++ nl
                ++ "- Work (ID: work)" ++ nl ++ "- Hidden (ID: hidden)" ++ nl)
  /\ fst (_list_calendars (a_google None [work; hidden; home] some_events)
            (mk_service a_token) [])
     = Raised (KeyError "summary").
Proof.
  split.
  - apply (proj1 (proj2 (list_calendars_lines
                           (a_google None [work; hidden] some_events)
                           (mk_service a_token) [] hidden [work] [] eq_refl
                           ltac:(repeat constructor; discriminate)))).
    + split; discriminate.
    + constructor.
  - apply (proj2 (proj2 (list_calendars_lines
                           (a_google None [work; hidden; home] some_events)
                           (mk_service a_token) [] home [work; hidden] [] eq_refl
                           ltac:(repeat constructor; discriminate)))).
    left. reflexivity.
Defined.

(** *** The actions *)

(** X20. The action "create" with a summary, a start and an end that are
    not empty makes one request, the insertion of an event with these three
    and the description, [None] when there is none, into the calendar given,
    "primary" when there is none; the result names the link of the event
    created, and an exception of the request is raised to [execute]. *)
Theorem create_inserts_one_event (g : Google) (service : Service)
  (kwargs : dict json) (h : History) :
  truthy (dict_get kwargs "summary" JNull) = true ->
  truthy (dict_get kwargs "start_time" JNull) = true ->
  truthy (dict_get kwargs "end_time" JNull) = true ->
  let calendar_id := match lookup kwargs "calendar_id" with
                     | Some id => id
                     | None => JStr "primary"
                     end in
  let body := JDict [("summary", dict_get kwargs "summary" JNull);
                     ("description", match lookup kwargs "description" with
                                     | Some d => d
                                     | None => JNull
                                     end);
                     ("start", JDict [("dateTime", dict_get kwargs "start_time" JNull)]);
                     ("end", JDict [("dateTime", dict_get kwargs "end_time" JNull)])] in
  dispatch g service (JStr "create") kwargs h
  = (match g_events_insert g h service calendar_id body with
     | Returned link => Returned ("Event created: " ++ str_opt link)
     | Raised e => Raised e
     end,
     (h ++ [GEventsInsert service calendar_id body])%list).
Proof.
  intros Hs Hb He. cbv zeta. unfold dispatch.
  cbn [eq_str String.eqb Ascii.eqb Bool.eqb]. rewrite Hs, Hb, He. cbn [andb negb].
  unfold _create_event, bind, call, event_body, dict_get, ret.
  destruct (g_events_insert g h service _ _); reflexivity.
Qed.

(** An event without description, in no calendar in particular. *)
Lemma create_inserts_one_event_witness :
  dispatch (a_google None [] some_events) (mk_service a_token) (JStr "create")
    [("action", JStr "create"); ("summary", JStr "lunch");
     ("start_time", JStr "2024-01-10T12:00:00"); ("end_time", JStr "2024-01-10T13:00:00")]
    []
  = (Returned "Event created: https://calendar/event",
     [GEventsInsert (mk_service a_token) (JStr "primary")
        (JDict [("summary", JStr "lunch"); ("description", JNull);
                ("start", JDict [("dateTime", JStr "2024-01-10T12:00:00")]);
                ("end", JDict [("dateTime", JStr "2024-01-10T13:00:00")])])]).
Proof.
  exact (create_inserts_one_event (a_google None [] some_events) (mk_service a_token)
           [("action", JStr "create"); ("summary", JStr "lunch");
            ("start_time", JStr "2024-01-10T12:00:00");
            ("end_time", JStr "2024-01-10T13:00:00")]
           [] eq_refl eq_refl eq_refl).
Defined.

(** X21. An action that is none of the three, and the action "create"
    without a summary, a start or an end (missing, [None] or empty), make no
    request at all: the answer is the message for that. *)
Theorem dispatch_makes_no_request (g : Google) (service : Service) (action : json)
  (kwargs : dict json) (h : History) :
  (eq_str action "list_calendars" = false
   /\ eq_str action "list" = false /\ eq_str action "create" = false)
  \/ (action = JStr "create"
      /\ (truthy (dict_get kwargs "summary" JNull) = false
          \/ truthy (dict_get kwargs "start_time" JNull) = false
          \/ truthy (dict_get kwargs "end_time" JNull) = false)) ->
  dispatch g service action kwargs h
  = (Returned (if eq_str action "create"
               then "Missing required parameters for 'create': summary, start_time, end_time."
               else "Unknown action: " ++ str g action), h).
Proof.
  unfold dispatch. intros [(H1 & H2 & H3)|(-> & Hm)].
  - now rewrite H1, H2, H3.
  - cbn [eq_str String.eqb Ascii.eqb Bool.eqb].
    destruct Hm as [Hm|[Hm|Hm]]; rewrite Hm; cbn [andb negb];
      rewrite ?andb_false_r; reflexivity.
Qed.

(** An action that does not exist; an event without an end. *)
Lemma dispatch_makes_no_request_witness :
  dispatch (a_google None [] some_events) (mk_service a_token) (JStr "delete") [] []
  = (Returned "Unknown action: delete", [])
  /\ dispatch (a_google None [] some_events) (mk_service a_token) (JStr "create")
       [("summary", JStr "lunch"); ("start_time", JStr "2024-01-10T12:00:00")] []
     = (Returned "Missing required parameters for 'create': summary, start_time, end_time.",
        []).
Proof.
  split.
  - apply (dispatch_makes_no_request (a_google None [] some_events) (mk_service a_token)
             (JStr "delete") [] []).
    left. repeat split.
  - apply (dispatch_makes_no_request (a_google None [] some_events) (mk_service a_token)
             (JStr "create")
             [("summary", JStr "lunch"); ("start_time", JStr "2024-01-10T12:00:00")] []).
    right. split; [reflexivity|]. right. right. reflexivity.
Defined.

End CalendarProps.
